(** * LLM evaluators of phoenix.datasets.evaluators.llm_evaluators

    A shallow embedding of [llm_evaluators.py]: the criteria evaluator and
    its factory-built variants, the relevance evaluator, and the label
    extractor, together with the fragments of Python's [str.format],
    [str.strip], [re.split] and [re.match] that the module relies on.

    Conventions.
    - A Python [str] is a [string]; a character is read as the code point
      of the same number (U+0000 to U+00FF).  All templates of the module
      are ASCII.
    - A call that may raise returns a [result]; the exceptions the module
      can produce are the constructors of [exn].
    - The model client is the only effect.  [evaluate] and [async_evaluate]
      run in the monad [M], which records every call made to the client. *)

From Stdlib Require Import String Ascii List Bool Arith Lia PrimFloat.
Import ListNotations.

Local Open Scope list_scope.
Local Open Scope string_scope.

(** ** Exceptions and results *)

Inductive exn : Type :=
| AssertionError
| KeyError (key : string)
| IndexError (msg : string)
| ValueError (msg : string)
| RuntimeError (msg : string)
| ClientError (msg : string)
    (* whatever the model client or a user callback raises *)
| Unmodelled (what : string).
    (* not a Python exception: a replacement field that uses a conversion,
       a format specification or an attribute/index accessor, which the
       embedding of [str.format] does not interpret *)

Inductive result (A : Type) : Type :=
| Ok (a : A)
| Raise (e : exn).

Arguments Ok {A} a.
Arguments Raise {A} e.

Definition rbind {A B} (r : result A) (k : A -> result B) : result B :=
  match r with
  | Ok a => k a
  | Raise e => Raise e
  end.

(** ** Strings *)

Module PyStr.

Definition code (c : ascii) : nat := nat_of_ascii c.

Definition between (lo hi : nat) (c : ascii) : bool :=
  Nat.leb lo (code c) && Nat.leb (code c) hi.

(** [str.isspace] on one character (Py_UNICODE_ISSPACE). *)
Definition is_space (c : ascii) : bool :=
  between 9 13 c || between 28 32 c
  || Nat.eqb (code c) 133 || Nat.eqb (code c) 160.

(** [\w] of a [str] pattern: alphanumeric (letter, decimal, digit or
    numeric) or underscore. *)
Definition is_word (c : ascii) : bool :=
  between 48 57 c || between 65 90 c || between 97 122 c
  || Nat.eqb (code c) 95
  || Nat.eqb (code c) 170 || Nat.eqb (code c) 178 || Nat.eqb (code c) 179
  || Nat.eqb (code c) 181 || Nat.eqb (code c) 185 || Nat.eqb (code c) 186
  || between 188 190 c
  || between 192 214 c || between 216 246 c || between 248 255 c.

Definition is_digit (c : ascii) : bool := between 48 57 c.

(** Lower-casing as [re.IGNORECASE] applies it to a candidate for an
    ASCII letter of the pattern: only A-Z fold onto a-z. *)
Definition lower (c : ascii) : ascii :=
  if between 65 90 c then ascii_of_nat (code c + 32) else c.

Fixpoint lstrip (s : string) : string :=
  match s with
  | EmptyString => EmptyString
  | String c s' => if is_space c then lstrip s' else s
  end.

Fixpoint rstrip (s : string) : string :=
  match s with
  | EmptyString => EmptyString
  | String c s' =>
      match rstrip s' with
      | EmptyString => if is_space c then EmptyString else String c EmptyString
      | r => String c r
      end
  end.

(** [s.strip()] *)
Definition strip (s : string) : string := rstrip (lstrip s).

(** [sub in s] *)
Fixpoint contains (sub s : string) : bool :=
  prefix sub s ||
  match s with
  | EmptyString => false
  | String _ s' => contains sub s'
  end.

Fixpoint all_chars (p : ascii -> bool) (s : string) : bool :=
  match s with
  | EmptyString => true
  | String c s' => p c && all_chars p s'
  end.

End PyStr.

(** ** [str.format] with keyword arguments

    The format string is read left to right as CPython's MarkupIterator
    does: literal text with [{{] and [}}] standing for one brace, and
    replacement fields [{name}].  The reading is lazy, so an error of the
    format string is raised only when the rendering reaches it. *)

Module Format.

Inductive markup : Type :=
| MEnd
| MLit (c : ascii) (rest : markup)
| MField (name : string) (rest : markup)
| MBad (e : exn).

Definition is_brace (c : ascii) : bool :=
  Ascii.eqb c "{" || Ascii.eqb c "}".

(** The characters that end a plain field name without closing the
    field: conversion, format specification, attribute and index. *)
Definition is_accessor (c : ascii) : bool :=
  Ascii.eqb c "!" || Ascii.eqb c ":" || Ascii.eqb c "." || Ascii.eqb c "[".

(** [scan None s] reads literal text, [scan (Some name) s] reads the
    rest of a replacement field whose name so far is [name]. *)
Fixpoint scan (field : option string) (s : string) : markup :=
  match field with
  | None =>
      match s with
      | EmptyString => MEnd
      | String c s1 =>
          if Ascii.eqb c "{" then
            match s1 with
            | EmptyString =>
                MBad (ValueError "Single '{' encountered in format string")
            | String c1 s2 =>
                if Ascii.eqb c1 "{" then MLit "{" (scan None s2)
                else scan (Some EmptyString) s1
            end
          else if Ascii.eqb c "}" then
            match s1 with
            | EmptyString =>
                MBad (ValueError "Single '}' encountered in format string")
            | String c1 s2 =>
                if Ascii.eqb c1 "}" then MLit "}" (scan None s2)
                else MBad (ValueError "Single '}' encountered in format string")
            end
          else MLit c (scan None s1)
      end
  | Some name =>
      match s with
      | EmptyString => MBad (ValueError "expected '}' before end of string")
      | String c s1 =>
          if Ascii.eqb c "}" then MField name (scan None s1)
          else if Ascii.eqb c "{" then
            MBad (ValueError "unexpected '{' in field name")
          else if is_accessor c then MBad (Unmodelled "replacement field")
          else scan (Some (name ++ String c EmptyString)) s1
      end
  end.

Definition parse (s : string) : markup := scan None s.

Definition kwargs : Type := list (string * string).

Fixpoint lookup (kw : kwargs) (key : string) : option string :=
  match kw with
  | [] => None
  | (k, v) :: kw' => if String.eqb k key then Some v else lookup kw' key
  end.

(** An empty or all-digit field name refers to a positional argument. *)
Definition is_positional (name : string) : bool :=
  PyStr.all_chars PyStr.is_digit name.

(** [get_field kw name]: the value a field stands for when the call has
    keyword arguments [kw] and no positional argument. *)
Definition get_field (kw : kwargs) (name : string) : result string :=
  if is_positional name then
    Raise (IndexError "Replacement index out of range for positional args tuple")
  else
    match lookup kw name with
    | Some v => Ok v
    | None => Raise (KeyError name)
    end.

Fixpoint render (kw : kwargs) (m : markup) : result string :=
  match m with
  | MEnd => Ok EmptyString
  | MLit c rest =>
      rbind (render kw rest) (fun s => Ok (String c s))
  | MField name rest =>
      rbind (get_field kw name) (fun v =>
      rbind (render kw rest) (fun s => Ok (v ++ s)))
  | MBad e => Raise e
  end.

(** [template.format] applied to the keyword arguments [kw] *)
Definition format (template : string) (kw : kwargs) : result string :=
  render kw (parse template).

(** The replacement fields of a format string, in order, when the whole
    string is well formed. *)
Fixpoint fields (m : markup) : result (list string) :=
  match m with
  | MEnd => Ok []
  | MLit _ rest => fields rest
  | MField name rest => rbind (fields rest) (fun l => Ok (name :: l))
  | MBad e => Raise e
  end.

Definition placeholders (template : string) : result (list string) :=
  fields (parse template).

(** A string without braces is literal text wherever it stands. *)
Definition brace_free (s : string) : bool :=
  PyStr.all_chars (fun c => negb (is_brace c)) s.

Fixpoint literal (s : string) (rest : markup) : markup :=
  match s with
  | EmptyString => rest
  | String c s' => MLit c (literal s' rest)
  end.

End Format.

(** ** The regular-expression fragment of the label delimiter

    The delimiter [\W*label\W*] is a sequence of character classes, each
    taken once or under a greedy star.  [match_at] is the backtracking
    matcher of such a sequence, anchored at the head of the string: a
    greedy star first takes as many characters as it can and gives them
    back one at a time while the rest of the pattern fails. *)

Module Re.

Inductive item : Type :=
| One (p : ascii -> bool)
| Many (p : ascii -> bool).

Definition pattern : Type := list item.

Definition consume (c : ascii) (m : option (string * string)) :
  option (string * string) :=
  match m with
  | Some (matched, rest) => Some (String c matched, rest)
  | None => None
  end.

(** [match_at pat s = Some (matched, rest)] when [pat] matches the prefix
    [matched] of [s = matched ++ rest]. *)
Fixpoint match_at (pat : pattern) (s : string) : option (string * string) :=
  match pat with
  | [] => Some (EmptyString, s)
  | One p :: pat' =>
      match s with
      | EmptyString => None
      | String c s' => if p c then consume c (match_at pat' s') else None
      end
  | Many p :: pat' =>
      (fix greedy (s : string) : option (string * string) :=
         match s with
         | EmptyString => match_at pat' s
         | String c s' =>
             if p c then
               match greedy s' with
               | Some (matched, rest) => Some (String c matched, rest)
               | None => match_at pat' s
               end
             else match_at pat' s
         end) s
  end.

(** A letter of the pattern under [re.IGNORECASE]. *)
Definition letter (x : ascii) : ascii -> bool :=
  fun c => Ascii.eqb (PyStr.lower c) x.

Definition non_word : ascii -> bool := fun c => negb (PyStr.is_word c).

(** The five letters of the delimiter. *)
Definition label_word : pattern :=
  [One (letter "l"); One (letter "a"); One (letter "b"); One (letter "e");
   One (letter "l")].

(** [\W*label\W*] with [flags=re.IGNORECASE]. *)
Definition label_delimiter : pattern :=
  Many non_word :: (label_word ++ [Many non_word])%list.

(** [re.match(pat, s)], as a truth value. *)
Definition re_match (pat : pattern) (s : string) : bool :=
  match match_at pat s with
  | Some _ => true
  | None => false
  end.

(** [re.search(pat, s)], as a truth value: a match starts somewhere. *)
Fixpoint re_search (pat : pattern) (s : string) : bool :=
  re_match pat s ||
  match s with
  | EmptyString => false
  | String _ s' => re_search pat s'
  end.

(** [re.split] for a pattern that is one capturing group and matches no
    empty string: the text between the matches and the matches
    themselves, in order.  [seg] is the text read since the last match.
    Every step either stops or moves on in [s], so [S (length s)] steps
    are enough (lemma [split_from_fuel]). *)
Fixpoint split_from (fuel : nat) (pat : pattern) (seg s : string) :
  list string :=
  match fuel with
  | O => [seg ++ s]
  | S fuel' =>
      match match_at pat s with
      | Some (d, rest) => seg :: d :: split_from fuel' pat EmptyString rest
      | None =>
          match s with
          | EmptyString => [seg]
          | String c s' => split_from fuel' pat (seg ++ String c EmptyString) s'
          end
      end
  end.

Definition re_split (pat : pattern) (s : string) : list string :=
  split_from (S (String.length s)) pat EmptyString s.

(** *** Vocabulary for the properties of the delimiter *)

(** The longest prefix of characters in a class, and what follows it. *)
Fixpoint take_while (p : ascii -> bool) (s : string) : string :=
  match s with
  | EmptyString => EmptyString
  | String c s' => if p c then String c (take_while p s') else EmptyString
  end.

Fixpoint drop_while (p : ascii -> bool) (s : string) : string :=
  match s with
  | EmptyString => EmptyString
  | String c s' => if p c then drop_while p s' else s
  end.

(** [l] is the word label in some casing. *)
Definition is_label (l : string) : bool :=
  match match_at label_word l with
  | Some (_, EmptyString) => true
  | _ => false
  end.

(** The word label, in some casing, starts after the first character
    of [s]. *)
Definition later_label (s : string) : bool :=
  match s with
  | EmptyString => false
  | String _ s' => re_search label_word s'
  end.

(** [x] is the first four letters of label, in some casing. *)
Definition is_labe (x : string) : bool :=
  match x with
  | String c1 (String c2 (String c3 (String c4 EmptyString))) =>
      letter "l" c1 && letter "a" c2 && letter "b" c3 && letter "e" c4
  | _ => false
  end.

(** [p] ends with the first four letters of label, so that a label
    starting in [p] would end on the first letter of what follows. *)
Fixpoint ends_with_labe (p : string) : bool :=
  is_labe p ||
  match p with
  | EmptyString => false
  | String _ p' => ends_with_labe p'
  end.

(** The occurrences of the word label are counted from left to right
    without overlap, as [re.split] (and [str.count]) count them: after an
    occurrence the scan goes on behind its five letters.
    [scan_reaches 0 p rest] holds when the scan of [p ++ rest] arrives at
    [rest], that is, when no counted occurrence starts in [p] and ends in
    [rest].  [skip] is the number of letters of the current occurrence
    still to pass. *)
Fixpoint scan_reaches (skip : nat) (p rest : string) : bool :=
  match p with
  | EmptyString => Nat.eqb skip 0
  | String _ p' =>
      match skip with
      | S k => scan_reaches k p' rest
      | O =>
          if re_match label_word (p ++ rest) then scan_reaches 4 p' rest
          else scan_reaches 0 p' rest
      end
  end.

(** Five characters, and what makes them the word label. *)
Definition word5 (c1 c2 c3 c4 c5 : ascii) : string :=
  String c1 (String c2 (String c3 (String c4 (String c5 "")))).

Definition letters5 (c1 c2 c3 c4 c5 : ascii) : Prop :=
  letter "l" c1 = true /\ letter "a" c2 = true /\ letter "b" c3 = true
  /\ letter "e" c4 = true /\ letter "l" c5 = true.

(** [r] does not start with a character of the class. *)
Definition starts_outside (p : ascii -> bool) (r : string) : Prop :=
  match r with
  | EmptyString => True
  | String c _ => p c = false
  end.

(** The parts of a split, put back together. *)
Definition join (parts : list string) : string :=
  fold_right append EmptyString parts.

End Re.

(** ** The label extractor *)

(** The [while] loop of [_parse_label_from_explanation]: from [last_index]
    down to 1, return the stripped part at the first index whose
    predecessor matches the delimiter.  The indices stay within [parts]. *)
Fixpoint scan_back (parts : list string) (last_index : nat) : option string :=
  match last_index with
  | O => None
  | S i =>
      if Re.re_match Re.label_delimiter (nth i parts EmptyString)
      then Some (PyStr.strip (nth last_index parts EmptyString))
      else scan_back parts i
  end.

Definition _parse_label_from_explanation (raw_string : string) : string :=
  let parts := Re.re_split Re.label_delimiter raw_string in
  if Nat.ltb 1 (List.length parts) then
    match scan_back parts (List.length parts - 1) with
    | Some label => label
    | None => raw_string
    end
  else raw_string.

(** ** Collaborators outside the module *)

(** The values an experiment carries, and the three imported helpers the
    evaluators call on them: [_unwrap_json] of
    phoenix.datasets.evaluators.utils, Python's [str], and [snap_to_rail]
    of phoenix.evals.utils.  None of them is defined in the module, so the
    evaluators are modelled for any implementation of them. *)
Class Externals : Type := {
  JSON : Type;
  _unwrap_json : JSON -> JSON;
  str : JSON -> string;
  snap_to_rail : string -> list string -> string
}.

(** Modelled from the spec: the types [Example], [ExperimentRun] and
    [EvaluationResult] of phoenix.datasets.types.  The evaluators read
    [example.input] and [run.output.result], [run.output] may be [None],
    and a result carries a score, an explanation and a metadata mapping
    (kept as an association list: the evaluators only build the empty
    one). *)
Record Example `{Externals} : Type := { input : JSON }.

Record ExperimentResult `{Externals} : Type := { result_ : JSON }.

Record ExperimentRun `{Externals} : Type :=
  { output : option ExperimentResult }.

Record EvaluationResult `{Externals} : Type := {
  score : float;
  explanation : string;
  metadata : list (string * JSON)
}.

(** The model client: a blocking and a suspending generation entry point.
    Either may fail. *)
Record LLMBaseModel : Type := {
  _generate : string -> result string;
  _async_generate : string -> result string
}.

(** ** Calls to the model client *)

Inductive call : Type :=
| Generate (prompt : string)
| AsyncGenerate (prompt : string).

(** A computation that may raise and that logs its calls to the client. *)
Definition M (A : Type) : Type := (result A * list call)%type.

Definition ret {A} (a : A) : M A := (Ok a, []).

Definition lift {A} (r : result A) : M A := (r, []).

Definition bind {A B} (m : M A) (k : A -> M B) : M B :=
  match m with
  | (Ok a, log) => let (r, log') := k a in (r, (log ++ log')%list)
  | (Raise e, log) => (Raise e, log)
  end.

Notation "x <- m ;; k" := (bind m (fun x => k))
  (at level 61, m at next level, right associativity).

(** [model._generate(prompt)] *)
Definition generate (model : LLMBaseModel) (prompt : string) : M string :=
  (_generate model prompt, [Generate prompt]).

(** [await model._async_generate(prompt)] *)
Definition async_generate (model : LLMBaseModel) (prompt : string) : M string :=
  (_async_generate model prompt, [AsyncGenerate prompt]).

Definition outcome {A} (m : M A) : result A := fst m.
Definition calls {A} (m : M A) : list call := snd m.

Definition nl : string := String (ascii_of_nat 10) EmptyString.

(** [str(x)] of an optional string; [None] prints as its name. *)
Definition str_opt (x : option string) : string :=
  match x with
  | Some s => s
  | None => "None"
  end.

(** ** LLMCriteriaEvaluator *)

Module LLMCriteriaEvaluator.

Definition annotator_kind : string := "LLM".

Definition _base_template : string :=
  "Determine if the following text is {criteria}. {description}"
  ++ "First, explain step-by-step why you think the text is or is not {criteria}. Then provide "
  ++ "a single word label; 'true' if the text is {criteria} or 'false' if the text is not "
  ++ "{criteria}. Here is an example template for whether the text meets a criteria:" ++ nl ++ nl
  ++ "CRITERIA: the text is '{criteria}'" ++ nl
  ++ "TEXT: *the provided text to evaluate*" ++ nl
  ++ "EXPLANATION: *a step by step explanation of your reasoning for whether the text meets "
  ++ "the criteria*" ++ nl
  ++ "LABEL: *true or false*" ++ nl ++ nl
  ++ "Follow this template for the following example:" ++ nl ++ nl
  ++ "CRITERIA: the text is '{criteria}'" ++ nl
  ++ "TEXT: {text}" ++ nl
  ++ "EXPLANATION: ".

Definition _description : string :=
  "In this context, '{criteria}' means the text '{description}'. ".

Definition _format_base_template (criteria : string)
    (description : option string) : result string :=
  rbind (Format.format _description
           [("criteria", criteria); ("description", str_opt description)])
    (fun formatted_description =>
       Format.format _base_template
         [("criteria", criteria);
          ("description", formatted_description);
          ("text", "{text}")]).

Record t : Type := {
  model : LLMBaseModel;
  criteria : string;
  description : string;
  template : string;
  name : string
}.

(** [LLMCriteriaEvaluator(model, criteria, description, name)] *)
Definition init (model : LLMBaseModel) (criteria description name : string) :
  result t :=
  rbind (_format_base_template criteria (Some description))
    (fun template =>
       Ok {| model := model; criteria := criteria;
             description := description; template := template;
             name := name |}).

Section Methods.
Context `{Externals}.

Definition _format_eval_template (self : t)
    (experiment_run : ExperimentRun) : result string :=
  match output experiment_run with
  | None => Raise AssertionError
  | Some out =>
      let result := _unwrap_json (result_ out) in
      Format.format (template self) [("text", str result)]
  end.

Definition _parse_eval_output (self : t) (unparsed_response : string) :
  result EvaluationResult :=
  let raw_label := _parse_label_from_explanation unparsed_response in
  let explanation := unparsed_response in
  let label := snap_to_rail raw_label ["true"; "false"] in
  rbind
    (if String.eqb label "true" then Ok 1%float
     else if String.eqb label "false" then Ok 0%float
     else Raise (RuntimeError
                   ("Could not parse LLM evaluation: " ++ unparsed_response)))
    (fun score =>
       Ok {| score := score; explanation := explanation; metadata := [] |}).

Definition evaluate (self : t) (example : Example)
    (exp_run : ExperimentRun) : M EvaluationResult :=
  formatted_template <- lift (_format_eval_template self exp_run) ;;
  unparsed_response <- generate (model self) formatted_template ;;
  lift (_parse_eval_output self unparsed_response).

Definition async_evaluate (self : t) (example : Example)
    (exp_run : ExperimentRun) : M EvaluationResult :=
  formatted_template <- lift (_format_eval_template self exp_run) ;;
  unparsed_response <- async_generate (model self) formatted_template ;;
  lift (_parse_eval_output self unparsed_response).

End Methods.

End LLMCriteriaEvaluator.

(** ** The evaluator factory *)

(** What [type(class_name, (LLMCriteriaEvaluator,), {...})] builds: a
    subclass with its own constructor and a class attribute [template].
    An instance still gets [self.template] from the inherited constructor
    body; the methods are those of [LLMCriteriaEvaluator]. *)
Record EvaluatorClass : Type := {
  class_name : string;
  class_module : string;
  class_template : string;
  class_init : LLMBaseModel -> option string -> result LLMCriteriaEvaluator.t
}.

Definition __name__ : string := "phoenix.datasets.evaluators.llm_evaluators".

(** [type] refuses a class name that contains the character U+0000. *)
Definition has_null (s : string) : bool :=
  negb (PyStr.all_chars (fun c => negb (Ascii.eqb c Ascii.zero)) s).

Definition criteria_evaluator_factory
    (class_name criteria description default_name : string) :
  result EvaluatorClass :=
  let _init (model : LLMBaseModel) (name : option string) :=
    LLMCriteriaEvaluator.init model criteria description
      (match name with Some n => n | None => default_name end) in
  rbind (LLMCriteriaEvaluator._format_base_template criteria (Some description))
    (fun template =>
       if has_null class_name then
         Raise (ValueError "type name must not contain null characters")
       else
         Ok {| class_name := class_name;
               class_module := __name__;
               class_template := template;
               class_init := _init |}).

Definition ConcisenessEvaluator : result EvaluatorClass :=
  criteria_evaluator_factory
    "ConcisenessEvaluator"
    "concise"
    "is just a few sentences and easy to follow"
    "Conciseness".

Definition HelpfulnessEvaluator : result EvaluatorClass :=
  criteria_evaluator_factory
    "HelpfulnessEvaluator"
    "helpful"
    "provides useful information"
    "Helpfulness".

Definition CoherenceEvaluator : result EvaluatorClass :=
  criteria_evaluator_factory
    "CoherenceEvaluator"
    "coherent"
    "is coherent, well-structured, and logically sound"
    "Coherence".

(** ** RelevanceEvaluator *)

Module RelevanceEvaluator.

Definition annotator_kind : string := "LLM".

Definition template : string :=
  "Determine if the following response is relevant to the query. In this context, "
  ++ "'relevance' means that the response directly addresses the core question or topic of the "
  ++ "query. First, explain step-by-step why you think the text is or is not relevant. "
  ++ "Then provide a single word label; 'true' if the text is relevant or 'false' if the text "
  ++ "is not relevant. "
  ++ "Here is an example template for your reponse:" ++ nl ++ nl
  ++ "CRITERIA: the response is 'relevant' to the query" ++ nl
  ++ "QUERY: *text that contains a query*" ++ nl
  ++ "RESPONSE: *a response that may or may not be relevant to the query*" ++ nl
  ++ "EXPLANATION: *a step by step explanation of your reasoning for whether or not the "
  ++ "response is relevant to the query*" ++ nl
  ++ "LABEL: *true or false*" ++ nl ++ nl
  ++ "Follow this template for the following example:" ++ nl ++ nl
  ++ "CRITERIA: the response is 'relevant' to the query" ++ nl
  ++ "QUERY: {reference}" ++ nl
  ++ "RESPONSE: {submission}" ++ nl
  ++ "EXPLANATION: ".

Section Methods.
Context `{Externals}.

(** An extraction function; being caller-supplied, it may raise. *)
Definition extractor : Type := Example -> ExperimentRun -> result string.

Record t : Type := {
  model : LLMBaseModel;
  name : string;
  get_query : extractor;
  get_response : extractor
}.

Definition _default_get_query : extractor :=
  fun example experiment_run => Ok (str (input example)).

Definition _default_get_response : extractor :=
  fun example experiment_run =>
    match output experiment_run with
    | None => Raise AssertionError
    | Some out => Ok (str (_unwrap_json (result_ out)))
    end.

(** [RelevanceEvaluator(model, get_query, get_response, name)]; an
    omitted argument is [None]. *)
Definition init (model : LLMBaseModel)
    (get_query get_response : option extractor) (name : option string) : t :=
  {| model := model;
     name := match name with Some n => n | None => "RelevanceEvaluator" end;
     get_query :=
       match get_query with Some f => f | None => _default_get_query end;
     get_response :=
       match get_response with Some f => f | None => _default_get_response end
  |}.

Definition _format_eval_template (self : t) (example : Example)
    (experiment_run : ExperimentRun) : result string :=
  match output experiment_run with
  | None => Raise AssertionError
  | Some _ =>
      rbind (get_query self example experiment_run) (fun query =>
      rbind (get_response self example experiment_run) (fun response =>
      Format.format template [("query", query); ("response", response)]))
  end.

Definition _parse_eval_output (self : t) (unparsed_response : string) :
  result EvaluationResult :=
  let raw_label := _parse_label_from_explanation unparsed_response in
  let explanation := unparsed_response in
  let label := snap_to_rail raw_label ["true"; "false"] in
  rbind
    (if String.eqb label "true" then Ok 1%float
     else if String.eqb label "false" then Ok 0%float
     else Raise (RuntimeError
                   ("Could not parse LLM evaluation: " ++ unparsed_response)))
    (fun score =>
       Ok {| score := score; explanation := explanation; metadata := [] |}).

Definition evaluate (self : t) (example : Example)
    (exp_run : ExperimentRun) : M EvaluationResult :=
  formatted_template <- lift (_format_eval_template self example exp_run) ;;
  unparsed_response <- generate (model self) formatted_template ;;
  lift (_parse_eval_output self unparsed_response).

Definition async_evaluate (self : t) (example : Example)
    (exp_run : ExperimentRun) : M EvaluationResult :=
  formatted_template <- lift (_format_eval_template self example exp_run) ;;
  unparsed_response <- async_generate (model self) formatted_template ;;
  lift (_parse_eval_output self unparsed_response).

End Methods.

End RelevanceEvaluator.

(** ** The text [_format_base_template] builds *)

Definition formatted_description (criteria description : string) : string :=
  "In this context, '" ++ criteria ++ "' means the text '" ++ description ++ "'. ".

Definition built_template (criteria description : string) : string :=
  "Determine if the following text is " ++ criteria ++ ". "
  ++ formatted_description criteria description
  ++ "First, explain step-by-step why you think the text is or is not "
  ++ criteria
  ++ ". Then provide a single word label; 'true' if the text is "
  ++ criteria
  ++ " or 'false' if the text is not "
  ++ criteria
  ++ ". Here is an example template for whether the text meets a criteria:"
  ++ nl ++ nl
  ++ "CRITERIA: the text is '" ++ criteria ++ "'" ++ nl
  ++ "TEXT: *the provided text to evaluate*" ++ nl
  ++ "EXPLANATION: *a step by step explanation of your reasoning for whether the text meets the criteria*"
  ++ nl
  ++ "LABEL: *true or false*" ++ nl ++ nl
  ++ "Follow this template for the following example:" ++ nl ++ nl
  ++ "CRITERIA: the text is '" ++ criteria ++ "'" ++ nl
  ++ "TEXT: {text}" ++ nl
  ++ "EXPLANATION: ".

(** ** Vocabulary of the result parser *)

Definition unparseable_message (raw : string) : string :=
  "Could not parse LLM evaluation: " ++ raw.

(** The label the parser classifies a raw response by. *)
Definition normalized_label `{Externals} (raw : string) : string :=
  snap_to_rail (_parse_label_from_explanation raw) ["true"; "false"].

(** The score of a rail value. *)
Definition score_of (label : string) : float :=
  if String.eqb label "true" then 1%float else 0%float.

(** ** Sample collaborators

    A concrete experiment to run the evaluators on: results are plain
    strings, unwrapping and printing leave them as they are, and a label
    is kept when it is one of the rails. *)

Definition sample_snap (raw : string) (rails : list string) : string :=
  if existsb (String.eqb raw) rails then raw else "NOT_PARSABLE".

Definition sample_externals : Externals :=
  {| JSON := string;
     _unwrap_json := fun x => x;
     str := fun x => x;
     snap_to_rail := sample_snap |}.

(** A client that answers every prompt with the same text. *)
Definition stub_model (answer : string) : LLMBaseModel :=
  {| _generate := fun _ => Ok answer;
     _async_generate := fun _ => Ok answer |}.

Definition sample_example : @Example sample_externals :=
  @Build_Example sample_externals "What is the capital of France?".

Definition sample_run : @ExperimentRun sample_externals :=
  @Build_ExperimentRun sample_externals
    (Some (@Build_ExperimentResult sample_externals "Paris")).

Definition sample_run_no_output : @ExperimentRun sample_externals :=
  @Build_ExperimentRun sample_externals None.

Definition sample_criteria_evaluator : LLMCriteriaEvaluator.t :=
  {| LLMCriteriaEvaluator.model := stub_model "LABEL: true";
     LLMCriteriaEvaluator.criteria := "concise";
     LLMCriteriaEvaluator.description := "is short";
     LLMCriteriaEvaluator.template := "TEXT: {text}";
     LLMCriteriaEvaluator.name := "Conciseness" |}.

Definition sample_relevance_evaluator : @RelevanceEvaluator.t sample_externals :=
  @RelevanceEvaluator.init sample_externals (stub_model "LABEL: true")
    None None None.

(** Sample responses of a model. *)

Definition response_with_two_labels : string :=
  "...LABEL: true because X. Actually, label: false".

Definition response_with_labels_word : string :=
  "LABEL: true" ++ nl ++ "The labels were clear".

Definition response_with_mislabeled_word : string :=
  "LABEL: false" ++ nl ++ "Nothing was mislabeled here.".

(** ** Vocabulary for the structure of a split and of a prompt *)

(** The parts of a split alternate: a text in which the delimiter matches
    nowhere, then a delimiter, then a text, and so on, ending with a
    text. *)
Fixpoint alternating (parts : list string) : Prop :=
  match parts with
  | [] => False
  | text :: parts' =>
      Re.re_search Re.label_delimiter text = false /\
      match parts' with
      | [] => True
      | d :: rest =>
          Re.match_at Re.label_delimiter d = Some (d, "") /\ alternating rest
      end
  end.

(** The word label starts at one of the characters of [seg] in
    [seg ++ s]. *)
Fixpoint starts_in (seg s : string) : bool :=
  match seg with
  | EmptyString => false
  | String c seg' =>
      Re.re_match Re.label_word (seg ++ s) || starts_in seg' s
  end.

(** A string of whitespace. *)
Definition spaces (s : string) : Prop :=
  PyStr.all_chars PyStr.is_space s = true.

(** The built template up to its placeholder, and after it. *)
Definition template_head (criteria description : string) : string :=
  "Determine if the following text is " ++ criteria ++ ". "
  ++ formatted_description criteria description
  ++ "First, explain step-by-step why you think the text is or is not "
  ++ criteria
  ++ ". Then provide a single word label; 'true' if the text is "
  ++ criteria
  ++ " or 'false' if the text is not "
  ++ criteria
  ++ ". Here is an example template for whether the text meets a criteria:"
  ++ nl ++ nl
  ++ "CRITERIA: the text is '" ++ criteria ++ "'" ++ nl
  ++ "TEXT: *the provided text to evaluate*" ++ nl
  ++ "EXPLANATION: *a step by step explanation of your reasoning for whether the text meets the criteria*"
  ++ nl
  ++ "LABEL: *true or false*" ++ nl ++ nl
  ++ "Follow this template for the following example:" ++ nl ++ nl
  ++ "CRITERIA: the text is '" ++ criteria ++ "'" ++ nl
  ++ "TEXT: ".

Definition template_tail : string := nl ++ "EXPLANATION: ".

(** A client that fails on every prompt. *)
Definition failing_model (msg : string) : LLMBaseModel :=
  {| _generate := fun _ => Raise (ClientError msg);
     _async_generate := fun _ => Raise (ClientError msg) |}.

(** * Properties *)

(** ** The result parser *)

Section ParseEvalOutput.
Context `{Externals}.

Lemma criteria_parse_unfold (self : LLMCriteriaEvaluator.t) (raw : string) :
  LLMCriteriaEvaluator._parse_eval_output self raw =
  if String.eqb (normalized_label raw) "true" then
    Ok {| score := 1%float; explanation := raw; metadata := [] |}
  else if String.eqb (normalized_label raw) "false" then
    Ok {| score := 0%float; explanation := raw; metadata := [] |}
  else Raise (RuntimeError (unparseable_message raw)).
Proof.
  unfold LLMCriteriaEvaluator._parse_eval_output, normalized_label.
  destruct (String.eqb _ "true"); [reflexivity|].
  destruct (String.eqb _ "false"); reflexivity.
Qed.

Lemma relevance_parse_unfold (self : RelevanceEvaluator.t) (raw : string) :
  RelevanceEvaluator._parse_eval_output self raw =
  if String.eqb (normalized_label raw) "true" then
    Ok {| score := 1%float; explanation := raw; metadata := [] |}
  else if String.eqb (normalized_label raw) "false" then
    Ok {| score := 0%float; explanation := raw; metadata := [] |}
  else Raise (RuntimeError (unparseable_message raw)).
Proof.
  unfold RelevanceEvaluator._parse_eval_output, normalized_label.
  destruct (String.eqb _ "true"); [reflexivity|].
  destruct (String.eqb _ "false"); reflexivity.
Qed.

(** C3. When the normalized label of a raw response is neither "true"
    nor "false", [_parse_eval_output] of either evaluator raises a
    RuntimeError whose message ends with the whole raw response; no
    EvaluationResult is returned. *)
Theorem parse_eval_output_rejects_other_labels (raw : string) :
  normalized_label raw <> "true" ->
  normalized_label raw <> "false" ->
  (forall self : LLMCriteriaEvaluator.t,
      LLMCriteriaEvaluator._parse_eval_output self raw =
      Raise (RuntimeError ("Could not parse LLM evaluation: " ++ raw)))
  /\
  (forall self : RelevanceEvaluator.t,
      RelevanceEvaluator._parse_eval_output self raw =
      Raise (RuntimeError ("Could not parse LLM evaluation: " ++ raw))).
Proof.
  intros Ht Hf.
  apply String.eqb_neq in Ht. apply String.eqb_neq in Hf.
  split; intros self.
  - rewrite criteria_parse_unfold, Ht, Hf. reflexivity.
  - rewrite relevance_parse_unfold, Ht, Hf. reflexivity.
Qed.

(** C6. When the normalized label is "true" or "false", the result of
    [_parse_eval_output] has score 1.0 for "true" and 0.0 for "false",
    its explanation is the raw response itself and its metadata is
    empty, for either evaluator. *)
Theorem parse_eval_output_accepts_rail_labels (raw : string) :
  normalized_label raw = "true" \/ normalized_label raw = "false" ->
  score_of "true" = 1%float /\ score_of "false" = 0%float /\
  (forall self : LLMCriteriaEvaluator.t,
      LLMCriteriaEvaluator._parse_eval_output self raw =
      Ok {| score := score_of (normalized_label raw);
            explanation := raw;
            metadata := [] |})
  /\
  (forall self : RelevanceEvaluator.t,
      RelevanceEvaluator._parse_eval_output self raw =
      Ok {| score := score_of (normalized_label raw);
            explanation := raw;
            metadata := [] |}).
Proof.
  intros Hl.
  split; [reflexivity|]. split; [reflexivity|].
  split; intros self.
  - rewrite criteria_parse_unfold.
    destruct Hl as [-> | ->]; reflexivity.
  - rewrite relevance_parse_unfold.
    destruct Hl as [-> | ->]; reflexivity.
Qed.

End ParseEvalOutput.

Lemma parse_eval_output_rejects_other_labels_witness :
  @normalized_label sample_externals "it is concise" = "NOT_PARSABLE"
  /\ @LLMCriteriaEvaluator._parse_eval_output sample_externals
       sample_criteria_evaluator "it is concise" =
     Raise (RuntimeError "Could not parse LLM evaluation: it is concise")
  /\ @RelevanceEvaluator._parse_eval_output sample_externals
       sample_relevance_evaluator "it is concise" =
     Raise (RuntimeError "Could not parse LLM evaluation: it is concise").
Proof.
  split; [reflexivity|].
  destruct (@parse_eval_output_rejects_other_labels sample_externals
              "it is concise") as [Hc Hr].
  - vm_compute. discriminate.
  - vm_compute. discriminate.
  - split; [apply Hc | apply Hr].
Defined.

Lemma parse_eval_output_accepts_rail_labels_witness :
  @normalized_label sample_externals "It is short. LABEL: false" = "false"
  /\ @LLMCriteriaEvaluator._parse_eval_output sample_externals
       sample_criteria_evaluator "It is short. LABEL: false" =
     Ok (@Build_EvaluationResult sample_externals 0%float
           "It is short. LABEL: false" []).
Proof.
  split; [reflexivity|].
  destruct (@parse_eval_output_accepts_rail_labels sample_externals
              "It is short. LABEL: false") as (_ & _ & Hc & _).
  - right. reflexivity.
  - apply Hc.
Defined.

(** ** Running an evaluator *)

Section Evaluate.
Context `{Externals}.

(** C5. When [run.output] is [None], [evaluate] and [async_evaluate] of
    both evaluators end in an AssertionError and the log of calls to the
    model client is empty. *)
Theorem evaluate_without_output
    (c : LLMCriteriaEvaluator.t) (r : RelevanceEvaluator.t)
    (example : Example) (run : ExperimentRun) :
  output run = None ->
  LLMCriteriaEvaluator.evaluate c example run = (Raise AssertionError, [])
  /\ LLMCriteriaEvaluator.async_evaluate c example run = (Raise AssertionError, [])
  /\ RelevanceEvaluator.evaluate r example run = (Raise AssertionError, [])
  /\ RelevanceEvaluator.async_evaluate r example run = (Raise AssertionError, []).
Proof.
  intros Hout.
  unfold LLMCriteriaEvaluator.evaluate, LLMCriteriaEvaluator.async_evaluate,
    RelevanceEvaluator.evaluate, RelevanceEvaluator.async_evaluate,
    LLMCriteriaEvaluator._format_eval_template,
    RelevanceEvaluator._format_eval_template.
  rewrite Hout. repeat split; reflexivity.
Qed.

(** C9. When the blocking and the suspending entry point of the model
    client answer every prompt alike, [evaluate] and [async_evaluate]
    have the same outcome, a result or an exception, for either
    evaluator. *)
Theorem async_evaluate_same_outcome
    (c : LLMCriteriaEvaluator.t) (r : RelevanceEvaluator.t)
    (example : Example) (run : ExperimentRun) :
  (forall prompt,
      _generate (LLMCriteriaEvaluator.model c) prompt =
      _async_generate (LLMCriteriaEvaluator.model c) prompt) ->
  (forall prompt,
      _generate (RelevanceEvaluator.model r) prompt =
      _async_generate (RelevanceEvaluator.model r) prompt) ->
  outcome (LLMCriteriaEvaluator.async_evaluate c example run) =
  outcome (LLMCriteriaEvaluator.evaluate c example run)
  /\
  outcome (RelevanceEvaluator.async_evaluate r example run) =
  outcome (RelevanceEvaluator.evaluate r example run).
Proof.
  intros Hc Hr.
  unfold LLMCriteriaEvaluator.evaluate, LLMCriteriaEvaluator.async_evaluate,
    RelevanceEvaluator.evaluate, RelevanceEvaluator.async_evaluate.
  split.
  - destruct (LLMCriteriaEvaluator._format_eval_template c run) as [p|e];
      [|reflexivity].
    unfold bind, lift, generate, async_generate, outcome. rewrite Hc.
    destruct (_async_generate (LLMCriteriaEvaluator.model c) p); reflexivity.
  - destruct (RelevanceEvaluator._format_eval_template r example run) as [p|e];
      [|reflexivity].
    unfold bind, lift, generate, async_generate, outcome. rewrite Hr.
    destruct (_async_generate (RelevanceEvaluator.model r) p); reflexivity.
Qed.

(** C1 (what the code does).  The placeholders of the relevance template
    are named [reference] and [submission], while
    [_format_eval_template] passes the keywords [query] and [response]:
    whenever the run has an output and both extraction functions
    return, the formatting raises KeyError on [reference], nothing is
    substituted and the model client is never called. *)
Theorem relevance_format_raises_key_error
    (r : RelevanceEvaluator.t) (example : Example) (run : ExperimentRun)
    (out : ExperimentResult) (query response : string) :
  output run = Some out ->
  RelevanceEvaluator.get_query r example run = Ok query ->
  RelevanceEvaluator.get_response r example run = Ok response ->
  Format.placeholders RelevanceEvaluator.template =
    Ok ["reference"; "submission"]
  /\ RelevanceEvaluator._format_eval_template r example run =
     Raise (KeyError "reference")
  /\ RelevanceEvaluator.evaluate r example run =
     (Raise (KeyError "reference"), [])
  /\ RelevanceEvaluator.async_evaluate r example run =
     (Raise (KeyError "reference"), []).
Proof.
  intros Hout Hq Hr.
  assert (Hfmt : RelevanceEvaluator._format_eval_template r example run =
                 Raise (KeyError "reference")).
  { unfold RelevanceEvaluator._format_eval_template.
    rewrite Hout, Hq, Hr. vm_compute. reflexivity. }
  split; [vm_compute; reflexivity|].
  split; [exact Hfmt|].
  unfold RelevanceEvaluator.evaluate, RelevanceEvaluator.async_evaluate.
  rewrite Hfmt. split; reflexivity.
Qed.

End Evaluate.

Lemma evaluate_without_output_witness :
  @output sample_externals sample_run_no_output = None
  /\ @LLMCriteriaEvaluator.evaluate sample_externals sample_criteria_evaluator
       sample_example sample_run_no_output = (Raise AssertionError, [])
  /\ @RelevanceEvaluator.async_evaluate sample_externals
       sample_relevance_evaluator sample_example sample_run_no_output =
     (Raise AssertionError, []).
Proof.
  split; [reflexivity|].
  destruct (@evaluate_without_output sample_externals
              sample_criteria_evaluator sample_relevance_evaluator
              sample_example sample_run_no_output) as (Hc & _ & _ & Hr).
  - reflexivity.
  - split; [exact Hc | exact Hr].
Defined.

Lemma async_evaluate_same_outcome_witness :
  outcome (@LLMCriteriaEvaluator.async_evaluate sample_externals
             sample_criteria_evaluator sample_example sample_run) =
  outcome (@LLMCriteriaEvaluator.evaluate sample_externals
             sample_criteria_evaluator sample_example sample_run)
  /\
  outcome (@RelevanceEvaluator.async_evaluate sample_externals
             sample_relevance_evaluator sample_example sample_run) =
  outcome (@RelevanceEvaluator.evaluate sample_externals
             sample_relevance_evaluator sample_example sample_run).
Proof.
  apply (@async_evaluate_same_outcome sample_externals
           sample_criteria_evaluator sample_relevance_evaluator
           sample_example sample_run).
  - intros prompt. reflexivity.
  - intros prompt. reflexivity.
Defined.

Lemma relevance_format_raises_key_error_witness :
  @RelevanceEvaluator.evaluate sample_externals sample_relevance_evaluator
    sample_example sample_run = (Raise (KeyError "reference"), []).
Proof.
  destruct (@relevance_format_raises_key_error sample_externals
              sample_relevance_evaluator sample_example sample_run
              (@Build_ExperimentResult sample_externals "Paris")
              "What is the capital of France?" "Paris")
    as (_ & _ & He & _).
  - reflexivity.
  - reflexivity.
  - reflexivity.
  - exact He.
Defined.

(** ** The built-in evaluators *)

(** C8. Each of the three factory-built classes exists, builds an
    evaluator from a model handle alone, gives it its default name, and
    has a template that contains its criterion word; the three templates
    differ from one another. *)
Theorem builtin_evaluators :
  exists conciseness helpfulness coherence : EvaluatorClass,
    ConcisenessEvaluator = Ok conciseness
    /\ HelpfulnessEvaluator = Ok helpfulness
    /\ CoherenceEvaluator = Ok coherence
    /\ (forall model, exists ev,
           class_init conciseness model None = Ok ev
           /\ LLMCriteriaEvaluator.model ev = model
           /\ LLMCriteriaEvaluator.name ev = "Conciseness"
           /\ LLMCriteriaEvaluator.template ev = class_template conciseness)
    /\ (forall model, exists ev,
           class_init helpfulness model None = Ok ev
           /\ LLMCriteriaEvaluator.model ev = model
           /\ LLMCriteriaEvaluator.name ev = "Helpfulness"
           /\ LLMCriteriaEvaluator.template ev = class_template helpfulness)
    /\ (forall model, exists ev,
           class_init coherence model None = Ok ev
           /\ LLMCriteriaEvaluator.model ev = model
           /\ LLMCriteriaEvaluator.name ev = "Coherence"
           /\ LLMCriteriaEvaluator.template ev = class_template coherence)
    /\ PyStr.contains "concise" (class_template conciseness) = true
    /\ PyStr.contains "helpful" (class_template helpfulness) = true
    /\ PyStr.contains "coherent" (class_template coherence) = true
    /\ class_template conciseness <> class_template helpfulness
    /\ class_template conciseness <> class_template coherence
    /\ class_template helpfulness <> class_template coherence.
Proof.
  do 3 eexists.
  split; [vm_compute; reflexivity|].
  split; [vm_compute; reflexivity|].
  split; [vm_compute; reflexivity|].
  split; [intros model; eexists; cbv beta iota delta [class_init]; split;
          [vm_compute; reflexivity | repeat split] |].
  split; [intros model; eexists; cbv beta iota delta [class_init]; split;
          [vm_compute; reflexivity | repeat split] |].
  split; [intros model; eexists; cbv beta iota delta [class_init]; split;
          [vm_compute; reflexivity | repeat split] |].
  split; [vm_compute; reflexivity|].
  split; [vm_compute; reflexivity|].
  split; [vm_compute; reflexivity|].
  repeat split; apply String.eqb_neq; vm_compute; reflexivity.
Qed.

(** ** The template builder *)

Lemma scan_literal (l r : string) :
  Format.brace_free l = true ->
  Format.scan None (l ++ r) = Format.literal l (Format.scan None r).
Proof.
  induction l as [|c l IH]; intros Hl; [reflexivity|].
  simpl in Hl. apply andb_true_iff in Hl. destruct Hl as [Hc Hl].
  unfold Format.is_brace in Hc. apply negb_true_iff, orb_false_iff in Hc.
  destruct Hc as [Ho Hcl].
  change (String c l ++ r) with (String c (l ++ r)).
  cbn [Format.scan Format.literal]. rewrite Ho, Hcl, IH by exact Hl.
  reflexivity.
Qed.

Lemma fields_literal (l : string) (m : Format.markup) :
  Format.fields (Format.literal l m) = Format.fields m.
Proof. induction l as [|c l IH]; [reflexivity | exact IH]. Qed.

Lemma placeholders_skip (l r : string) :
  Format.brace_free l = true ->
  Format.placeholders (l ++ r) = Format.placeholders r.
Proof.
  intros Hl. unfold Format.placeholders, Format.parse.
  rewrite scan_literal by exact Hl. apply fields_literal.
Qed.

Lemma brace_free_app (a b : string) :
  Format.brace_free (a ++ b) = Format.brace_free a && Format.brace_free b.
Proof.
  induction a as [|c a IH]; [reflexivity|].
  cbn. unfold Format.brace_free in IH. rewrite IH, andb_assoc. reflexivity.
Qed.

(** The builder never fails and never reads its arguments as markup. *)
Lemma format_base_template_value (criteria : string) (description : option string) :
  LLMCriteriaEvaluator._format_base_template criteria description =
  Ok (built_template criteria (str_opt description)).
Proof. vm_compute. reflexivity. Qed.

Lemma built_template_placeholders (criteria description : string) :
  Format.brace_free criteria = true ->
  Format.brace_free description = true ->
  Format.placeholders (built_template criteria description) = Ok ["text"].
Proof.
  intros Hc Hd.
  assert (Hfd : Format.brace_free (formatted_description criteria description) = true).
  { unfold formatted_description.
    rewrite !brace_free_app, Hc, Hd. reflexivity. }
  unfold built_template.
  repeat
    (rewrite placeholders_skip
       by first [exact Hc | exact Hfd | reflexivity]).
  reflexivity.
Qed.

(** C7 (amended).  When neither the criteria nor the description contains
    a brace, the built template is well formed and its only replacement
    field is [text], occurring once.  The builder is a function of its two
    arguments, so building twice gives the same string. *)
Theorem base_template_one_placeholder
    (criteria : string) (description : option string) :
  Format.brace_free criteria = true ->
  Format.brace_free (str_opt description) = true ->
  exists template,
    LLMCriteriaEvaluator._format_base_template criteria description = Ok template
    /\ Format.placeholders template = Ok ["text"]
    /\ forall template',
        LLMCriteriaEvaluator._format_base_template criteria description
        = Ok template' ->
        template' = template.
Proof.
  intros Hc Hd.
  exists (built_template criteria (str_opt description)).
  split; [apply format_base_template_value|].
  split; [apply built_template_placeholders; assumption|].
  intros template' Hb. rewrite format_base_template_value in Hb.
  injection Hb as <-. reflexivity.
Qed.

Lemma base_template_one_placeholder_witness :
  Format.brace_free "concise" = true
  /\ exists template,
      LLMCriteriaEvaluator._format_base_template "concise"
        (Some "is just a few sentences and easy to follow") = Ok template
      /\ Format.placeholders template = Ok ["text"].
Proof.
  split; [reflexivity|].
  destruct (base_template_one_placeholder "concise"
              (Some "is just a few sentences and easy to follow"))
    as (template & Hb & Hp & _).
  - reflexivity.
  - reflexivity.
  - exists template. split; [exact Hb | exact Hp].
Defined.

(** C7 as stated fails: a criteria with a brace pair puts its own
    replacement field in the built template at each of its seven
    occurrences. *)
Lemma base_template_placeholders_counterexample :
  exists template,
    LLMCriteriaEvaluator._format_base_template "{x}" (Some "is short")
    = Ok template
    /\ Format.placeholders template
       = Ok ["x"; "x"; "x"; "x"; "x"; "x"; "x"; "text"]
    /\ Format.placeholders template <> Ok ["text"].
Proof.
  eexists. split; [vm_compute; reflexivity|].
  split; [vm_compute; reflexivity|].
  vm_compute. discriminate.
Qed.

(** ** The matcher of the delimiter *)

Section Matcher.
Import Re.

Lemma append_assoc (a b c : string) : (a ++ b) ++ c = a ++ (b ++ c).
Proof. induction a as [|x a IH]; [reflexivity | cbn; now rewrite IH]. Qed.

Lemma append_nil_r (a : string) : a ++ "" = a.
Proof. induction a as [|x a IH]; [reflexivity | cbn; now rewrite IH]. Qed.

Lemma length_append (a b : string) :
  String.length (a ++ b) = String.length a + String.length b.
Proof. induction a as [|x a IH]; [reflexivity | cbn; now rewrite IH]. Qed.

Lemma take_drop_while (p : ascii -> bool) (s : string) :
  take_while p s ++ drop_while p s = s.
Proof.
  induction s as [|c s IH]; [reflexivity|].
  cbn. destruct (p c); [cbn; now rewrite IH | reflexivity].
Qed.

(** A match is a prefix of the string, and leaves the rest. *)
Lemma match_at_sound (pat : pattern) :
  forall s m r, match_at pat s = Some (m, r) -> s = m ++ r.
Proof.
  induction pat as [|[p|p] pat IH]; intros s m r.
  - cbn. intros [= <- <-]. reflexivity.
  - destruct s as [|c s]; [discriminate|]. cbn.
    destruct (p c); [|discriminate].
    destruct (match_at pat s) as [[m' r']|] eqn:E; [|discriminate].
    cbn. intros [= <- <-]. cbn. f_equal. now apply IH.
  - revert m r. induction s as [|c s IHs]; intros m r.
    + cbn. apply IH.
    + cbn. destruct (p c); [|apply IH].
      match goal with
      | |- context [match ?g with Some _ => _ | None => _ end] =>
          destruct g as [[m' r']|] eqn:E
      end; [|apply IH].
      intros [= <- <-]. cbn. f_equal. now apply IHs.
Qed.

(** A lone greedy star takes the whole run. *)
Lemma match_at_star (p : ascii -> bool) (s : string) :
  match_at [Many p] s = Some (take_while p s, drop_while p s).
Proof.
  induction s as [|c s IH]; [reflexivity|].
  cbn in *. rewrite IH. destruct (p c); reflexivity.
Qed.

(** A greedy star followed by a character outside its class cannot give
    anything back: it takes the whole run or the match fails. *)
Lemma match_at_star_then (p q : ascii -> bool) (pat : pattern) (s : string) :
  (forall c, q c = true -> p c = false) ->
  match_at (Many p :: One q :: pat) s =
  match match_at (One q :: pat) (drop_while p s) with
  | Some (m, r) => Some (take_while p s ++ m, r)
  | None => None
  end.
Proof.
  intros Hpq. induction s as [|c s IH]; [reflexivity|].
  change (match_at (Many p :: One q :: pat) (String c s))
    with (if p c then
            match match_at (Many p :: One q :: pat) s with
            | Some (m, r) => Some (String c m, r)
            | None => match_at (One q :: pat) (String c s)
            end
          else match_at (One q :: pat) (String c s)).
  cbn [take_while drop_while].
  destruct (p c) eqn:Hp.
  - rewrite IH.
    destruct (match_at (One q :: pat) (drop_while p s)) as [[m r]|];
      [reflexivity|].
    cbn. destruct (q c) eqn:Hq; [|reflexivity].
    apply Hpq in Hq. congruence.
  - destruct (match_at (One q :: pat) (String c s)) as [[m r]|]; reflexivity.
Qed.

(** Single characters first, then the rest of the pattern. *)
Lemma match_at_one_app (q : ascii -> bool) (pat1 pat2 : pattern) (s : string) :
  (forall s, match_at (pat1 ++ pat2)%list s =
             match match_at pat1 s with
             | Some (m, r) =>
                 match match_at pat2 r with
                 | Some (m', r') => Some (m ++ m', r')
                 | None => None
                 end
             | None => None
             end) ->
  match_at ((One q :: pat1) ++ pat2)%list s =
  match match_at (One q :: pat1) s with
  | Some (m, r) =>
      match match_at pat2 r with
      | Some (m', r') => Some (m ++ m', r')
      | None => None
      end
  | None => None
  end.
Proof.
  intros H. destruct s as [|c s]; [reflexivity|].
  cbn [app match_at]. destruct (q c); [|reflexivity].
  rewrite H. destruct (match_at pat1 s) as [[m r]|]; [|reflexivity].
  cbn. destruct (match_at pat2 r) as [[m' r']|]; reflexivity.
Qed.

Lemma match_at_label_then (pat2 : pattern) (s : string) :
  match_at (label_word ++ pat2)%list s =
  match match_at label_word s with
  | Some (m, r) =>
      match match_at pat2 r with
      | Some (m', r') => Some (m ++ m', r')
      | None => None
      end
  | None => None
  end.
Proof.
  revert s. unfold label_word.
  repeat (intros s; apply match_at_one_app; clear s).
  intros s. cbn [app match_at].
  destruct (match_at pat2 s) as [[m' r']|]; reflexivity.
Qed.

End Matcher.

Section Delimiter.
Import Re.

(** The letters of the pattern are word characters in either case. *)
Lemma letter_is_word (x c : ascii) :
  In x ["l"; "a"; "b"; "e"]%char ->
  letter x c = true -> non_word c = false.
Proof.
  intros Hx Hc.
  assert (Hw : PyStr.is_word x = true /\ PyStr.lower x = x).
  { cbn in Hx. destruct Hx as [<-|[<-|[<-|[<-|[]]]]]; split; reflexivity. }
  destruct Hw as [Hw Hlx].
  unfold non_word. apply negb_false_iff.
  unfold letter in Hc. apply Ascii.eqb_eq in Hc.
  unfold PyStr.lower in Hc.
  destruct (PyStr.between 65 90 c) eqn:Hup.
  - unfold PyStr.is_word. rewrite Hup. cbn. now rewrite orb_true_r.
  - subst c. exact Hw.
Qed.

Lemma label_word_inv (s m r : string) :
  match_at label_word s = Some (m, r) ->
  exists c1 c2 c3 c4 c5,
    s = word5 c1 c2 c3 c4 c5 ++ r /\ m = word5 c1 c2 c3 c4 c5
    /\ letters5 c1 c2 c3 c4 c5.
Proof.
  unfold label_word, letters5.
  destruct s as [|c1 [|c2 [|c3 [|c4 [|c5 s]]]]]; cbn;
    repeat match goal with
      | |- context [letter ?x ?c] => destruct (letter x c) eqn:?; cbn
      end; try discriminate.
  intros [= <- <-]. exists c1, c2, c3, c4, c5. repeat split; assumption.
Qed.

Lemma label_word_intro (c1 c2 c3 c4 c5 : ascii) (r : string) :
  letters5 c1 c2 c3 c4 c5 ->
  match_at label_word (word5 c1 c2 c3 c4 c5 ++ r)
  = Some (word5 c1 c2 c3 c4 c5, r).
Proof.
  intros (H1 & H2 & H3 & H4 & H5). cbn. rewrite H1, H2, H3, H4, H5.
  reflexivity.
Qed.

Lemma is_label_inv (l : string) :
  is_label l = true ->
  exists c1 c2 c3 c4 c5, l = word5 c1 c2 c3 c4 c5 /\ letters5 c1 c2 c3 c4 c5.
Proof.
  unfold is_label. intros H.
  destruct (match_at label_word l) as [[m [|? ?]]|] eqn:E; try discriminate.
  apply label_word_inv in E. destruct E as (c1 & c2 & c3 & c4 & c5 & -> & _ & L).
  exists c1, c2, c3, c4, c5. split; [apply append_nil_r | exact L].
Qed.

(** The delimiter, read off the string: the run of non-word characters,
    the five letters, the next run. *)
Lemma match_at_delimiter (s : string) :
  match_at label_delimiter s =
  match match_at label_word (drop_while non_word s) with
  | Some (l, r) =>
      Some (take_while non_word s ++ l ++ take_while non_word r,
            drop_while non_word r)
  | None => None
  end.
Proof.
  unfold label_delimiter.
  change (label_word ++ [Many non_word])%list
    with (One (letter "l") :: (tl label_word ++ [Many non_word])%list).
  rewrite match_at_star_then.
  - change (One (letter "l") :: (tl label_word ++ [Many non_word])%list)
      with (label_word ++ [Many non_word])%list.
    rewrite match_at_label_then.
    destruct (match_at label_word (drop_while non_word s)) as [[l r]|];
      [|reflexivity].
    rewrite match_at_star. reflexivity.
  - intros c Hc. apply (letter_is_word "l"); [cbn; auto | exact Hc].
Qed.

Lemma drop_while_word (c : ascii) (s : string) :
  non_word c = false -> drop_while non_word (String c s) = String c s.
Proof. intros H. cbn. now rewrite H. Qed.

Lemma take_while_word (c : ascii) (s : string) :
  non_word c = false -> take_while non_word (String c s) = "".
Proof. intros H. cbn. now rewrite H. Qed.

(** The five letters are matched wherever they stand.  Neither star
    needs a character: after a word character the scan arrives at the
    letters, and before one the match ends with them. *)
Lemma match_at_delimiter_label (l t : string) :
  is_label l = true ->
  match_at label_delimiter (l ++ t)
  = Some (l ++ take_while non_word t, drop_while non_word t).
Proof.
  intros Hl. apply is_label_inv in Hl.
  destruct Hl as (c1 & c2 & c3 & c4 & c5 & -> & L).
  rewrite match_at_delimiter.
  assert (H1 : non_word c1 = false).
  { apply (letter_is_word "l"); [cbn; auto | apply L]. }
  change (word5 c1 c2 c3 c4 c5 ++ t)
    with (String c1 (String c2 (String c3 (String c4 (String c5 t))))).
  rewrite drop_while_word, take_while_word by exact H1.
  change (String c1 (String c2 (String c3 (String c4 (String c5 t)))))
    with (word5 c1 c2 c3 c4 c5 ++ t).
  rewrite label_word_intro by exact L. reflexivity.
Qed.

Lemma drop_while_idem (p : ascii -> bool) (s : string) :
  drop_while p (drop_while p s) = drop_while p s.
Proof.
  induction s as [|c s IH]; [reflexivity|].
  cbn. destruct (p c) eqn:E; [exact IH | cbn; now rewrite E].
Qed.

Lemma take_while_all (p : ascii -> bool) (s : string) :
  take_while p (take_while p s) = take_while p s
  /\ drop_while p (take_while p s) = "".
Proof.
  induction s as [|c s [IH1 IH2]]; [split; reflexivity|].
  cbn. destruct (p c) eqn:E; [|split; reflexivity].
  cbn. rewrite E, IH1, IH2. split; reflexivity.
Qed.

Lemma while_outside (p : ascii -> bool) (r : string) :
  starts_outside p r -> take_while p r = "" /\ drop_while p r = r.
Proof.
  destruct r as [|c r]; cbn; [split; reflexivity|].
  intros ->. split; reflexivity.
Qed.

Lemma starts_outside_drop (p : ascii -> bool) (s : string) :
  starts_outside p (drop_while p s).
Proof.
  induction s as [|c s IH]; [exact I|].
  cbn. destruct (p c) eqn:E; [exact IH | exact E].
Qed.

Lemma take_while_app (p : ascii -> bool) (s r : string) :
  starts_outside p r ->
  take_while p (take_while p s ++ r) = take_while p s
  /\ drop_while p (take_while p s ++ r) = r.
Proof.
  intros Hr. induction s as [|c s [IH1 IH2]].
  - apply while_outside, Hr.
  - cbn. destruct (p c) eqn:E.
    + cbn. rewrite E, IH1, IH2. split; reflexivity.
    + apply while_outside, Hr.
Qed.

End Delimiter.

(** ** Splitting on the delimiter *)

Section Split.
Import Re.

(** What a match of the delimiter looks like: it matches on its own, it
    is a prefix of the string, it is not empty, and what follows it does
    not start with a non-word character. *)
Lemma delimiter_match (s d rest : string) :
  match_at label_delimiter s = Some (d, rest) ->
  match_at label_delimiter d = Some (d, "")
  /\ s = d ++ rest
  /\ String.length rest < String.length s
  /\ starts_outside non_word rest.
Proof.
  intros Hm. pose proof (match_at_sound _ _ _ _ Hm) as Hs.
  rewrite match_at_delimiter in Hm.
  destruct (match_at label_word (drop_while non_word s)) as [[l r]|] eqn:El;
    [|discriminate].
  injection Hm as <- <-.
  apply label_word_inv in El.
  destruct El as (c1 & c2 & c3 & c4 & c5 & Hdrop & -> & L).
  assert (H1 : non_word c1 = false).
  { apply (letter_is_word "l"); [cbn; auto | apply L]. }
  repeat split.
  - rewrite match_at_delimiter.
    destruct (take_while_app non_word s
                (word5 c1 c2 c3 c4 c5 ++ take_while non_word r) H1)
      as [Ht Hd].
    rewrite Hd, Ht, label_word_intro by exact L.
    destruct (take_while_all non_word r) as [-> ->]. reflexivity.
  - exact Hs.
  - apply (f_equal String.length) in Hs.
    rewrite !length_append in Hs. cbn in Hs. lia.
  - apply starts_outside_drop.
Qed.

Lemma re_search_here (pat : pattern) (s : string) :
  re_search pat s = false -> match_at pat s = None.
Proof.
  destruct s as [|c s]; cbn; unfold re_match;
    destruct (match_at pat _); cbn; intros H; congruence.
Qed.

(** The split never runs out of steps: any two budgets above the length
    of the string give the same parts. *)
Lemma split_from_fuel (fuel1 : nat) :
  forall fuel2 seg s,
    String.length s < fuel1 ->
    String.length s < fuel2 ->
    split_from fuel1 label_delimiter seg s
    = split_from fuel2 label_delimiter seg s.
Proof.
  induction fuel1 as [|fuel1 IH]; intros fuel2 seg s H1 H2; [lia|].
  destruct fuel2 as [|fuel2]; [lia|].
  cbn [split_from].
  destruct (match_at label_delimiter s) as [[d rest]|] eqn:Em.
  - destruct (delimiter_match _ _ _ Em) as (_ & _ & Hshort & _).
    rewrite (IH fuel2 "" rest) by lia. reflexivity.
  - destruct s as [|c s]; [reflexivity|].
    cbn [String.length] in H1, H2. apply IH; lia.
Qed.

(** Without a match the split is the string itself. *)
Lemma split_from_no_match (fuel : nat) :
  forall seg s,
    re_search label_delimiter s = false ->
    split_from fuel label_delimiter seg s = [seg ++ s].
Proof.
  induction fuel as [|fuel IH]; intros seg s Hs; [reflexivity|].
  cbn [split_from]. rewrite (re_search_here _ _ Hs).
  destruct s as [|c s].
  - now rewrite append_nil_r.
  - rewrite IH.
    + now rewrite append_assoc.
    + cbn in Hs. apply orb_false_iff in Hs. apply Hs.
Qed.

(** With a match the split ends with the last delimiter and the text
    after it, in which nothing matches. *)
Lemma split_from_last (fuel : nat) :
  forall seg s,
    String.length s < fuel ->
    re_search label_delimiter s = true ->
    exists front d post,
      split_from fuel label_delimiter seg s = (front ++ [d; post])%list
      /\ match_at label_delimiter d = Some (d, "")
      /\ re_search label_delimiter post = false
      /\ join front ++ d ++ post = seg ++ s.
Proof.
  induction fuel as [|fuel IH]; intros seg s Hlen Hs; [lia|].
  cbn [split_from].
  destruct (match_at label_delimiter s) as [[d rest]|] eqn:Em.
  - destruct (delimiter_match _ _ _ Em) as (Hd & Hsplit & Hshort & _).
    destruct (re_search label_delimiter rest) eqn:Er.
    + destruct (IH "" rest) as (front & d' & post & Hsp & Hd' & Hpost & Hj);
        [lia | exact Er |].
      exists (seg :: d :: front), d', post.
      rewrite Hsp. repeat split; try assumption.
      cbn [join fold_right]. fold (join front).
      rewrite !append_assoc, Hj, Hsplit. reflexivity.
    + rewrite (split_from_no_match fuel "" rest Er).
      exists [seg], d, rest. repeat split; try assumption.
      cbn. now rewrite append_nil_r, Hsplit.
  - destruct s as [|c s].
    + cbn in Hs. discriminate.
    + cbn in Hs. unfold re_match in Hs. rewrite Em in Hs. cbn in Hs, Hlen.
      destruct (IH (seg ++ String c "") s) as (front & d & post & Hsp & Hd & Hpost & Hj);
        [lia | exact Hs |].
      exists front, d, post. repeat split; try assumption.
      rewrite Hj. now rewrite append_assoc.
Qed.

(** The loop of the extractor stops at its first test: the part before
    the last one is the last delimiter. *)
Lemma extractor_on_split (raw : string) (front : list string) (d post : string) :
  re_split label_delimiter raw = (front ++ [d; post])%list ->
  match_at label_delimiter d = Some (d, "") ->
  _parse_label_from_explanation raw = PyStr.strip post.
Proof.
  intros Hsp Hd. unfold _parse_label_from_explanation. rewrite Hsp.
  rewrite length_app. cbn [List.length].
  replace (List.length front + 2 - 1) with (S (List.length front)) by lia.
  replace (Nat.ltb 1 (List.length front + 2)) with true
    by (symmetry; apply Nat.ltb_lt; lia).
  cbn [scan_back].
  rewrite app_nth2 by lia. rewrite Nat.sub_diag. cbn [nth].
  unfold re_match. rewrite Hd.
  rewrite app_nth2 by lia.
  replace (S (List.length front) - List.length front) with 1 by lia.
  reflexivity.
Qed.

(** C2. When the delimiter matches somewhere in the raw response, the
    split ends with the last delimiter [d] and the text [post] after it,
    nothing matches in [post], the parts put together are the response,
    and the extractor returns [post] stripped. *)
Theorem extractor_returns_text_after_last_delimiter (raw : string) :
  re_search label_delimiter raw = true ->
  exists front d post,
    re_split label_delimiter raw = (front ++ [d; post])%list
    /\ raw = join front ++ d ++ post
    /\ match_at label_delimiter d = Some (d, "")
    /\ re_search label_delimiter post = false
    /\ _parse_label_from_explanation raw = PyStr.strip post.
Proof.
  intros Hs.
  destruct (split_from_last (S (String.length raw)) "" raw)
    as (front & d & post & Hsp & Hd & Hpost & Hj); [lia | exact Hs |].
  exists front, d, post. repeat split; try assumption.
  - now rewrite Hj.
  - now apply (extractor_on_split raw front d post).
Qed.

(** C4. When the delimiter matches nowhere in the raw response, the
    split is the one segment [raw] and the extractor returns [raw]. *)
Theorem extractor_returns_raw_without_delimiter (raw : string) :
  re_search label_delimiter raw = false ->
  re_split label_delimiter raw = [raw]
  /\ _parse_label_from_explanation raw = raw.
Proof.
  intros Hs.
  assert (Hsp : re_split label_delimiter raw = [raw]).
  { unfold re_split. now rewrite split_from_no_match. }
  split; [exact Hsp|].
  unfold _parse_label_from_explanation. rewrite Hsp. reflexivity.
Qed.

End Split.

(** ** A label inside a word *)

Section Embedded.
Import Re.

Lemma re_search_suffix (pat : pattern) (a b : string) :
  re_search pat b = true -> re_search pat (a ++ b) = true.
Proof.
  intros Hb. induction a as [|c a IH]; [exact Hb|].
  cbn. rewrite IH. apply orb_true_r.
Qed.

Lemma re_search_suffix_false (pat : pattern) (a b : string) :
  re_search pat (a ++ b) = false -> re_search pat b = false.
Proof.
  intros Hab. destruct (re_search pat b) eqn:Hb; [|reflexivity].
  now rewrite (re_search_suffix pat a b Hb) in Hab.
Qed.

(** Where the delimiter matches, the word label occurs. *)
Lemma re_search_delimiter_label (s : string) :
  re_search label_delimiter s = true -> re_search label_word s = true.
Proof.
  induction s as [|c s IH].
  - cbn. discriminate.
  - intros H. cbn [re_search] in H. apply orb_true_iff in H.
    destruct H as [H|H].
    + unfold re_match in H. rewrite match_at_delimiter in H.
      destruct (match_at label_word (drop_while non_word (String c s)))
        as [[m r]|] eqn:E; [|discriminate].
      rewrite <- (take_drop_while non_word (String c s)).
      apply re_search_suffix.
      destruct (drop_while non_word (String c s)) as [|x u];
        cbn [re_search]; unfold re_match; rewrite E; reflexivity.
    + cbn [re_search]. rewrite (IH H). apply orb_true_r.
Qed.

Lemma letter_unique (x y c : ascii) :
  letter x c = true -> letter y c = true -> x = y.
Proof.
  unfold letter. intros Hx Hy.
  apply Ascii.eqb_eq in Hx. apply Ascii.eqb_eq in Hy. congruence.
Qed.

Lemma drop_while_before_label (p l t : string) :
  is_label l = true ->
  drop_while non_word (p ++ l ++ t) = drop_while non_word p ++ l ++ t.
Proof.
  intros Hl. apply is_label_inv in Hl.
  destruct Hl as (c1 & c2 & c3 & c4 & c5 & -> & L).
  assert (H1 : non_word c1 = false).
  { apply (letter_is_word "l"); [cbn; auto | apply L]. }
  induction p as [|c p IH].
  - cbn. now rewrite H1.
  - cbn. destruct (non_word c); [exact IH | reflexivity].
Qed.

Lemma ends_with_labe_suffix (a b : string) :
  ends_with_labe (a ++ b) = false -> ends_with_labe b = false.
Proof.
  induction a as [|c a IH]; [trivial|].
  cbn [append ends_with_labe]. intros H.
  apply orb_false_iff in H. apply IH, H.
Qed.

(** A label matched at a word character of the prefix lies within the
    prefix, unless the prefix is empty and the label is [l] itself. *)
Lemma label_word_before (p1 l t m r : string) :
  is_label l = true ->
  ends_with_labe p1 = false ->
  match_at label_word (p1 ++ l ++ t) = Some (m, r) ->
  (p1 = "" /\ m = l /\ r = t)
  \/ (exists p2, p1 = m ++ p2 /\ r = p2 ++ l ++ t).
Proof.
  intros Hl He Hm. apply is_label_inv in Hl.
  destruct Hl as (c1 & c2 & c3 & c4 & c5 & -> & L).
  apply label_word_inv in Hm.
  destruct Hm as (d1 & d2 & d3 & d4 & d5 & Heq & -> & D).
  destruct L as (L1 & L2 & L3 & L4 & L5).
  destruct D as (D1 & D2 & D3 & D4 & D5).
  destruct p1 as [|x1 [|x2 [|x3 [|x4 [|x5 p2]]]]];
    cbn in Heq; injection Heq as E1 E2 E3 E4 E5 E6; subst.
  - left. repeat split; reflexivity.
  - pose proof (letter_unique _ _ _ L1 D2). discriminate.
  - pose proof (letter_unique _ _ _ L1 D3). discriminate.
  - pose proof (letter_unique _ _ _ L1 D4). discriminate.
  - cbn in He. rewrite D1, D2, D3, D4 in He. discriminate.
  - right. exists p2. split; reflexivity.
Qed.

Lemma split_reaches_label (l t : string) :
  is_label l = true ->
  re_search label_delimiter (drop_while non_word t) = false ->
  forall fuel p seg,
    String.length (p ++ l ++ t) < fuel ->
    ends_with_labe p = false ->
    exists front d,
      split_from fuel label_delimiter seg (p ++ l ++ t)
      = (front ++ [d; drop_while non_word t])%list
      /\ match_at label_delimiter d = Some (d, "").
Proof.
  intros Hl Hpost.
  induction fuel as [|fuel IH]; intros p seg Hlen He; [lia|].
  cbn [split_from].
  destruct (match_at label_delimiter (p ++ l ++ t)) as [[d rest]|] eqn:Em.
  - destruct (delimiter_match _ _ _ Em) as (Hd & _ & Hshort & _).
    rewrite match_at_delimiter, drop_while_before_label in Em by exact Hl.
    destruct (match_at label_word (drop_while non_word p ++ l ++ t))
      as [[m r]|] eqn:El; [|discriminate].
    injection Em as _ Hrest.
    assert (He1 : ends_with_labe (drop_while non_word p) = false).
    { apply (ends_with_labe_suffix (take_while non_word p)).
      now rewrite take_drop_while. }
    destruct (label_word_before _ _ _ _ _ Hl He1 El)
      as [(_ & _ & ->) | (p2 & Hp1 & ->)].
    + subst rest. rewrite (split_from_no_match fuel "" _ Hpost).
      exists [seg], d. split; [reflexivity | exact Hd].
    + rewrite drop_while_before_label in Hrest by exact Hl. subst rest.
      destruct (IH (drop_while non_word p2) "") as (front & d' & Hsp & Hd').
      * lia.
      * apply (ends_with_labe_suffix (take_while non_word p2)).
        rewrite take_drop_while.
        apply (ends_with_labe_suffix m). now rewrite <- Hp1.
      * exists (seg :: d :: front), d'. rewrite Hsp.
        split; [reflexivity | exact Hd'].
  - destruct p as [|c p].
    + cbn [append] in Em. rewrite match_at_delimiter_label in Em by exact Hl.
      discriminate.
    + cbn [append]. cbn [append String.length] in Hlen.
      destruct (IH p (seg ++ String c "")) as (front & d & Hsp & Hd).
      * lia.
      * apply (ends_with_labe_suffix (String c "")). exact He.
      * exists front, d. split; assumption.
Qed.

Lemma re_match_word_non_word (c : ascii) (s : string) :
  non_word c = true -> re_match label_word (String c s) = false.
Proof.
  intros Hc. unfold re_match, label_word. cbn [match_at].
  destruct (letter "l" c) eqn:E; [|reflexivity].
  apply (letter_is_word "l") in E; [congruence | cbn; auto].
Qed.

Lemma scan_reaches_non_word (p rest : string) :
  scan_reaches 0 p rest = scan_reaches 0 (drop_while non_word p) rest.
Proof.
  induction p as [|c p IH]; [reflexivity|].
  cbn [drop_while]. destruct (non_word c) eqn:Hc; [|reflexivity].
  cbn [scan_reaches].
  change (String c p ++ rest) with (String c (p ++ rest)).
  rewrite re_match_word_non_word by exact Hc. exact IH.
Qed.

Lemma no_delimiter_no_word (s : string) :
  match_at label_delimiter s = None -> re_match label_word s = false.
Proof.
  intros Hn. unfold re_match.
  destruct (match_at label_word s) as [[m r]|] eqn:E; [|reflexivity].
  apply label_word_inv in E.
  destruct E as (c1 & c2 & c3 & c4 & c5 & -> & _ & L).
  assert (Hl : is_label (word5 c1 c2 c3 c4 c5) = true).
  { unfold is_label.
    pose proof (label_word_intro c1 c2 c3 c4 c5 "" L) as H.
    change (word5 c1 c2 c3 c4 c5 ++ "") with (word5 c1 c2 c3 c4 c5) in H.
    now rewrite H. }
  rewrite (match_at_delimiter_label _ r Hl) in Hn. discriminate.
Qed.

(** The split arrives at every occurrence the scan counts. *)
Lemma split_reaches_scan (l t : string) :
  is_label l = true ->
  re_search label_delimiter (drop_while non_word t) = false ->
  forall fuel p seg,
    String.length (p ++ l ++ t) < fuel ->
    scan_reaches 0 p (l ++ t) = true ->
    exists front d,
      split_from fuel label_delimiter seg (p ++ l ++ t)
      = (front ++ [d; drop_while non_word t])%list
      /\ match_at label_delimiter d = Some (d, "").
Proof.
  intros Hl Hpost.
  induction fuel as [|fuel IH]; intros p seg Hlen He; [lia|].
  cbn [split_from].
  destruct (match_at label_delimiter (p ++ l ++ t)) as [[d rest]|] eqn:Em.
  - destruct (delimiter_match _ _ _ Em) as (Hd & _ & Hshort & _).
    rewrite match_at_delimiter, drop_while_before_label in Em by exact Hl.
    rewrite scan_reaches_non_word in He.
    destruct (match_at label_word (drop_while non_word p ++ l ++ t))
      as [[m r]|] eqn:El; [|discriminate].
    injection Em as _ Hrest.
    destruct (drop_while non_word p) as [|x1 p1] eqn:Ep.
    + cbn [append] in El.
      pose proof (is_label_inv _ Hl) as (c1 & c2 & c3 & c4 & c5 & Hw & L).
      rewrite Hw, label_word_intro in El by exact L.
      injection El as _ <-.
      subst rest. rewrite (split_from_no_match fuel "" _ Hpost).
      exists [seg], d. split; [reflexivity | exact Hd].
    + cbn [scan_reaches] in He. unfold re_match in He. rewrite El in He.
      destruct p1 as [|x2 [|x3 [|x4 [|x5 p2]]]]; try discriminate He.
      cbn [scan_reaches] in He.
      apply label_word_inv in El.
      destruct El as (d1 & d2 & d3 & d4 & d5 & Heq & _ & _).
      cbn in Heq. injection Heq as _ _ _ _ _ Hr.
      rewrite <- Hr, drop_while_before_label in Hrest by exact Hl. subst rest.
      destruct (IH (drop_while non_word p2) "") as (front & d' & Hsp & Hd').
      * lia.
      * now rewrite <- scan_reaches_non_word.
      * exists (seg :: d :: front), d'. rewrite Hsp.
        split; [reflexivity | exact Hd'].
  - destruct p as [|c p].
    + cbn [append] in Em. rewrite match_at_delimiter_label in Em by exact Hl.
      discriminate.
    + cbn [append]. cbn [append String.length] in Hlen.
      cbn [scan_reaches] in He.
      rewrite (no_delimiter_no_word _ Em) in He.
      destruct (IH p (seg ++ String c "")) as (front & d & Hsp & Hd);
        [lia | exact He |].
      exists front, d. split; assumption.
Qed.

(** C10 (amended).  The five letters are matched even with a word
    character on either side.  So when [l] is the last occurrence of the
    word label in the raw response [p ++ l ++ t], counting occurrences
    from left to right without overlap as the split does -- the scan of
    [p] arrives at [l], and no occurrence lies in [t] -- then, whatever
    precedes and follows [l], the split ends with the delimiter of [l]
    and the extractor returns what follows [l], from its first word
    character on, stripped: not the text after an earlier [LABEL:] line
    of [p]. *)
Theorem extractor_takes_embedded_label (p l t : string) :
  is_label l = true ->
  scan_reaches 0 p (l ++ t) = true ->
  re_search label_word t = false ->
  match_at label_delimiter (l ++ t)
  = Some (l ++ take_while non_word t, drop_while non_word t)
  /\ (exists front d,
         re_split label_delimiter (p ++ l ++ t)
         = (front ++ [d; drop_while non_word t])%list)
  /\ _parse_label_from_explanation (p ++ l ++ t)
     = PyStr.strip (drop_while non_word t).
Proof.
  intros Hl He Ht.
  split; [now apply match_at_delimiter_label|].
  assert (Hpost : re_search label_delimiter (drop_while non_word t) = false).
  { destruct (re_search label_delimiter (drop_while non_word t)) eqn:E;
      [|reflexivity].
    apply re_search_delimiter_label in E.
    apply (re_search_suffix _ (take_while non_word t)) in E.
    rewrite take_drop_while in E. congruence. }
  destruct (split_reaches_scan l t Hl Hpost
              (S (String.length (p ++ l ++ t))) p "")
    as (front & d & Hsp & Hd); [lia | exact He |].
  split.
  - exists front, d. exact Hsp.
  - now apply (extractor_on_split _ front d).
Qed.

End Embedded.

(** ** The extractor on sample responses *)

Lemma extractor_returns_text_after_last_delimiter_witness :
  Re.re_search Re.label_delimiter response_with_two_labels = true
  /\ Re.re_split Re.label_delimiter response_with_two_labels
     = [""; "...LABEL: "; "true because X. Actually"; ", label: "; "false"]
  /\ exists front d post,
      Re.re_split Re.label_delimiter response_with_two_labels
      = (front ++ [d; post])%list
      /\ response_with_two_labels = Re.join front ++ d ++ post
      /\ Re.match_at Re.label_delimiter d = Some (d, "")
      /\ Re.re_search Re.label_delimiter post = false
      /\ _parse_label_from_explanation response_with_two_labels
         = PyStr.strip post.
Proof.
  split; [reflexivity|]. split; [reflexivity|].
  apply (extractor_returns_text_after_last_delimiter response_with_two_labels).
  reflexivity.
Defined.

Lemma extractor_returns_raw_without_delimiter_witness :
  Re.re_search Re.label_delimiter "it is concise" = false
  /\ Re.re_split Re.label_delimiter "it is concise" = ["it is concise"]
  /\ _parse_label_from_explanation "it is concise" = "it is concise".
Proof.
  split; [reflexivity|].
  apply (extractor_returns_raw_without_delimiter "it is concise").
  reflexivity.
Defined.

Lemma extractor_takes_embedded_label_witness :
  response_with_labels_word = ("LABEL: true" ++ nl ++ "The ") ++ "label" ++ "s were clear"
  /\ _parse_label_from_explanation response_with_labels_word = "s were clear"
  /\ response_with_mislabeled_word
     = ("LABEL: false" ++ nl ++ "Nothing was mis") ++ "label" ++ "ed here."
  /\ _parse_label_from_explanation response_with_mislabeled_word = "ed here."
  /\ _parse_label_from_explanation ("labelabe" ++ "label" ++ ": x") = "x".
Proof.
  split; [reflexivity|]. split.
  - exact (proj2 (proj2
      (extractor_takes_embedded_label ("LABEL: true" ++ nl ++ "The ")
         "label" "s were clear" eq_refl eq_refl eq_refl))).
  - split; [reflexivity|]. split.
    + exact (proj2 (proj2
        (extractor_takes_embedded_label
           ("LABEL: false" ++ nl ++ "Nothing was mis")
           "label" "ed here." eq_refl eq_refl eq_refl))).
    + exact (proj2 (proj2
        (extractor_takes_embedded_label "labelabe" "label" ": x"
           eq_refl eq_refl eq_refl))).
Defined.

(** C10 as stated fails.  In the response below the last place where the
    letters of label stand is inside the word labels, but the split has
    already taken the first letter of that word as the last letter of an
    occurrence that starts four characters earlier: the extractor
    returns [abels were clear], not the [s were clear] that follows the
    last occurrence. *)
Lemma embedded_label_counterexample :
  Re.is_label "label" = true
  /\ Re.later_label ("label" ++ "s were clear") = false
  /\ Re.re_split Re.label_delimiter
       (("LABEL: true" ++ nl ++ "The labe") ++ "label" ++ "s were clear")
     = [""; "LABEL: "; "true" ++ nl ++ "The"; " label"; "abels were clear"]
  /\ _parse_label_from_explanation
       (("LABEL: true" ++ nl ++ "The labe") ++ "label" ++ "s were clear")
     = "abels were clear"
  /\ PyStr.strip (Re.drop_while Re.non_word "s were clear") = "s were clear"
  /\ ~ (forall p l t : string,
          Re.is_label l = true ->
          Re.later_label (l ++ t) = false ->
          _parse_label_from_explanation (p ++ l ++ t)
          = PyStr.strip (Re.drop_while Re.non_word t)).
Proof.
  split; [reflexivity|]. split; [reflexivity|]. split; [reflexivity|].
  split; [reflexivity|]. split; [reflexivity|].
  intros H.
  specialize (H ("LABEL: true" ++ nl ++ "The labe") "label" "s were clear"
                eq_refl eq_refl).
  vm_compute in H. discriminate H.
Qed.

(** The response of the specification: two labels, the last one wins and
    the evaluation scores 0.0. *)
Example two_labels_score :
  _parse_label_from_explanation response_with_two_labels = "false"
  /\ @LLMCriteriaEvaluator._parse_eval_output sample_externals
       sample_criteria_evaluator response_with_two_labels
     = Ok (@Build_EvaluationResult sample_externals 0%float
             response_with_two_labels []).
Proof. split; reflexivity. Qed.

(** The matches of a split do not overlap: in [labelabels] the scan takes
    the first five letters, and the label that starts on their last
    letter is never seen. *)
Example overlapping_labels :
  Re.re_split Re.label_delimiter "LABEL: true labelabels x"
  = [""; "LABEL: "; "true"; " label"; "abels x"]
  /\ Re.ends_with_labe "LABEL: true labe" = true
  /\ _parse_label_from_explanation "LABEL: true labelabels x" = "abels x".
Proof. repeat split; reflexivity. Qed.

(** A delimiter at the very end leaves an empty last part. *)
Example label_at_the_end :
  Re.re_split Re.label_delimiter "a label" = ["a"; " label"; ""]
  /\ _parse_label_from_explanation "a label" = "".
Proof. split; reflexivity. Qed.

(** ** [str.format] on sample format strings *)

(** The format string is read lazily: a missing keyword is reported
    before a stray brace further on. *)
Example format_errors_in_order :
  Format.format "{a} }" [] = Raise (KeyError "a")
  /\ Format.format "{a} }" [("a", "x")]
     = Raise (ValueError "Single '}' encountered in format string")
  /\ Format.format "{{{a}}}" [("a", "x"); ("b", "y")] = Ok "{x}".
Proof. repeat split; reflexivity. Qed.

(** The criteria evaluator renders its prompt; a built template whose
    criteria had braces cannot be rendered. *)
Example criteria_prompt :
  @LLMCriteriaEvaluator._format_eval_template sample_externals
    sample_criteria_evaluator sample_run = Ok "TEXT: Paris"
  /\ rbind (LLMCriteriaEvaluator.init (stub_model "LABEL: true")
              "{x}" "is short" "X")
       (fun ev => @LLMCriteriaEvaluator._format_eval_template
                    sample_externals ev sample_run)
     = Raise (KeyError "x").
Proof. split; vm_compute; reflexivity. Qed.

(** * Further properties *)

(** ** Where the delimiter is found *)

Section Occurrences.
Import Re.

Lemma is_label_word5 (c1 c2 c3 c4 c5 : ascii) :
  letters5 c1 c2 c3 c4 c5 -> is_label (word5 c1 c2 c3 c4 c5) = true.
Proof.
  intros L. pose proof (label_word_intro c1 c2 c3 c4 c5 "" L) as H.
  unfold is_label.
  change (word5 c1 c2 c3 c4 c5 ++ "") with (word5 c1 c2 c3 c4 c5) in H.
  rewrite H. reflexivity.
Qed.

Lemma re_match_word_delimiter (s : string) :
  re_match label_word s = true -> re_match label_delimiter s = true.
Proof.
  unfold re_match.
  destruct (match_at label_word s) as [[m r]|] eqn:E; [|discriminate].
  intros _. apply label_word_inv in E.
  destruct E as (c1 & c2 & c3 & c4 & c5 & -> & _ & L).
  rewrite match_at_delimiter_label by now apply is_label_word5.
  reflexivity.
Qed.

Lemma re_search_word_delimiter (s : string) :
  re_search label_word s = true -> re_search label_delimiter s = true.
Proof.
  induction s as [|c s IH]; [cbn; discriminate|].
  cbn [re_search]. intros H. apply orb_true_iff in H.
  apply orb_true_iff. destruct H as [H|H].
  - left. now apply re_match_word_delimiter.
  - right. now apply IH.
Qed.

Lemma re_search_delimiter_word (s : string) :
  re_search label_delimiter s = re_search label_word s.
Proof.
  destruct (re_search label_delimiter s) eqn:Ed.
  - symmetry. now apply re_search_delimiter_label.
  - destruct (re_search label_word s) eqn:Ew; [|reflexivity].
    apply re_search_word_delimiter in Ew. congruence.
Qed.

(** X12. The delimiter matches somewhere in a string exactly when the
    letters l, a, b, e, l occur there in a row, in either case; the
    characters around them play no part. *)
Theorem delimiter_found_iff_letters (s : string) :
  re_search label_delimiter s = true <->
  exists before c1 c2 c3 c4 c5 after,
    s = before ++ word5 c1 c2 c3 c4 c5 ++ after
    /\ letters5 c1 c2 c3 c4 c5.
Proof.
  rewrite re_search_delimiter_word. split.
  - induction s as [|c s IH]; [cbn; discriminate|].
    cbn [re_search]. intros H. apply orb_true_iff in H.
    destruct H as [H|H].
    + unfold re_match in H.
      destruct (match_at label_word (String c s)) as [[m r]|] eqn:E;
        [|discriminate].
      apply label_word_inv in E.
      destruct E as (c1 & c2 & c3 & c4 & c5 & Hs & _ & L).
      exists "", c1, c2, c3, c4, c5, r. split; [exact Hs | exact L].
    + destruct (IH H) as (b & c1 & c2 & c3 & c4 & c5 & a & -> & L).
      exists (String c b), c1, c2, c3, c4, c5, a. split; [reflexivity | exact L].
  - intros (b & c1 & c2 & c3 & c4 & c5 & a & -> & L).
    apply re_search_suffix.
    change (word5 c1 c2 c3 c4 c5 ++ a)
      with (String c1 (String c2 (String c3 (String c4 (String c5 a))))).
    cbn [re_search]. apply orb_true_iff. left. unfold re_match.
    change (String c1 (String c2 (String c3 (String c4 (String c5 a)))))
      with (word5 c1 c2 c3 c4 c5 ++ a).
    now rewrite label_word_intro.
Qed.

Lemma re_match_word_prefix (a b : string) :
  re_match label_word a = true -> re_match label_word (a ++ b) = true.
Proof.
  unfold re_match.
  destruct (match_at label_word a) as [[m r]|] eqn:E; [|discriminate].
  intros _. apply label_word_inv in E.
  destruct E as (c1 & c2 & c3 & c4 & c5 & -> & _ & L).
  rewrite append_assoc, label_word_intro by exact L. reflexivity.
Qed.

Lemma re_search_word_prefix (a b : string) :
  re_search label_word a = true -> re_search label_word (a ++ b) = true.
Proof.
  induction a as [|c a IH]; [cbn; discriminate|].
  cbn [re_search append]. intros H. apply orb_true_iff in H.
  apply orb_true_iff. destruct H as [H|H].
  - left. now apply (re_match_word_prefix (String c a) b).
  - right. now apply IH.
Qed.

(** Nothing matches in a piece of a string in which nothing matches. *)
Lemma re_search_piece (a x b : string) :
  re_search label_delimiter (a ++ x ++ b) = false ->
  re_search label_delimiter x = false.
Proof.
  rewrite !re_search_delimiter_word. intros H.
  destruct (re_search label_word x) eqn:E; [|reflexivity].
  apply (re_search_word_prefix x b) in E.
  apply (re_search_suffix _ a) in E. congruence.
Qed.

End Occurrences.

(** ** Stripping *)

Section Strip.
Import Re.

Lemma space_is_non_word (c : ascii) :
  PyStr.is_space c = true -> non_word c = true.
Proof.
  destruct c as [b0 b1 b2 b3 b4 b5 b6 b7].
  destruct b0, b1, b2, b3, b4, b5, b6, b7; vm_compute;
    intros H; first [reflexivity | discriminate H].
Qed.

Lemma lstrip_piece (s : string) :
  exists a, s = a ++ PyStr.lstrip s /\ spaces a.
Proof.
  induction s as [|c s (a & Hs & Ha)].
  - exists "". split; reflexivity.
  - cbn [PyStr.lstrip]. destruct (PyStr.is_space c) eqn:E.
    + exists (String c a). split.
      * cbn. now rewrite <- Hs.
      * unfold spaces. cbn. now rewrite E.
    + exists "". split; reflexivity.
Qed.

Lemma rstrip_piece (s : string) :
  exists b, s = PyStr.rstrip s ++ b /\ spaces b.
Proof.
  induction s as [|c s (b & Hs & Hb)].
  - exists "". split; reflexivity.
  - cbn [PyStr.rstrip]. destruct (PyStr.rstrip s) as [|x r] eqn:Er.
    + cbn [append] in Hs. subst b.
      destruct (PyStr.is_space c) eqn:E.
      * exists (String c s). split; [reflexivity|].
        unfold spaces. cbn. now rewrite E.
      * exists s. split; [reflexivity | exact Hb].
    + exists b. split; [|exact Hb].
      rewrite Hs at 1. reflexivity.
Qed.

Lemma strip_piece (s : string) :
  exists a b, s = a ++ PyStr.strip s ++ b /\ spaces a /\ spaces b.
Proof.
  destruct (lstrip_piece s) as (a & Hs & Ha).
  destruct (rstrip_piece (PyStr.lstrip s)) as (b & Hl & Hb).
  exists a, b. unfold PyStr.strip. rewrite <- Hl. auto.
Qed.

Lemma lstrip_outside (s : string) :
  starts_outside non_word s -> PyStr.lstrip s = s.
Proof.
  destruct s as [|c s]; [reflexivity|]. cbn. intros Hc.
  destruct (PyStr.is_space c) eqn:E; [|reflexivity].
  apply space_is_non_word in E. congruence.
Qed.

Lemma rstrip_head (c : ascii) (s : string) :
  PyStr.rstrip (String c s) = ""
  \/ exists r, PyStr.rstrip (String c s) = String c r.
Proof.
  cbn [PyStr.rstrip]. destruct (PyStr.rstrip s) as [|x r].
  - destruct (PyStr.is_space c); [left; reflexivity|].
    right. exists "". reflexivity.
  - right. exists (String x r). reflexivity.
Qed.

Lemma rstrip_outside (s : string) :
  starts_outside non_word s -> starts_outside non_word (PyStr.rstrip s).
Proof.
  destruct s as [|c s]; [trivial|]. intros Hc.
  destruct (rstrip_head c s) as [-> | (r & ->)]; [exact I | exact Hc].
Qed.

Lemma rstrip_idem (s : string) :
  PyStr.rstrip (PyStr.rstrip s) = PyStr.rstrip s.
Proof.
  induction s as [|c s IH]; [reflexivity|].
  cbn [PyStr.rstrip]. destruct (PyStr.rstrip s) as [|x r] eqn:Er.
  - destruct (PyStr.is_space c) eqn:E; [reflexivity|].
    cbn. now rewrite E.
  - cbn [PyStr.rstrip] in *. now rewrite IH.
Qed.

End Strip.

(** ** What the extractor returns *)

Section Extractor.
Import Re.

(** The text after the last delimiter starts with a word character, if
    it starts at all. *)
Lemma split_from_tail (fuel : nat) :
  forall seg s,
    String.length s < fuel ->
    re_search label_delimiter s = true ->
    exists front d post,
      split_from fuel label_delimiter seg s = (front ++ [d; post])%list
      /\ match_at label_delimiter d = Some (d, "")
      /\ re_search label_delimiter post = false
      /\ join front ++ d ++ post = seg ++ s
      /\ starts_outside non_word post.
Proof.
  induction fuel as [|fuel IH]; intros seg s Hlen Hs; [lia|].
  cbn [split_from].
  destruct (match_at label_delimiter s) as [[d rest]|] eqn:Em.
  - destruct (delimiter_match _ _ _ Em) as (Hd & Hsplit & Hshort & Hout).
    destruct (re_search label_delimiter rest) eqn:Er.
    + destruct (IH "" rest)
        as (front & d' & post & Hsp & Hd' & Hpost & Hj & Ho);
        [lia | exact Er |].
      exists (seg :: d :: front), d', post.
      rewrite Hsp. repeat split; try assumption.
      cbn [join fold_right]. fold (join front).
      rewrite !append_assoc, Hj, Hsplit. reflexivity.
    + rewrite (split_from_no_match fuel "" rest Er).
      exists [seg], d, rest. repeat split; try assumption.
      cbn. now rewrite append_nil_r, Hsplit.
  - destruct s as [|c s].
    + cbn in Hs. discriminate.
    + cbn in Hs. unfold re_match in Hs. rewrite Em in Hs. cbn in Hs, Hlen.
      destruct (IH (seg ++ String c "") s)
        as (front & d & post & Hsp & Hd & Hpost & Hj & Ho);
        [lia | exact Hs |].
      exists front, d, post. repeat split; try assumption.
      rewrite Hj. now rewrite append_assoc.
Qed.

(** The two ways the extractor ends. *)
Lemma extractor_cases (raw : string) :
  (re_search label_delimiter raw = false
   /\ re_split label_delimiter raw = [raw]
   /\ _parse_label_from_explanation raw = raw)
  \/
  (re_search label_delimiter raw = true
   /\ exists front d post,
       re_split label_delimiter raw = (front ++ [d; post])%list
       /\ raw = join front ++ d ++ post
       /\ re_search label_delimiter post = false
       /\ starts_outside non_word post
       /\ _parse_label_from_explanation raw = PyStr.strip post).
Proof.
  destruct (re_search label_delimiter raw) eqn:Es.
  - right. split; [reflexivity|].
    destruct (split_from_tail (S (String.length raw)) "" raw)
      as (front & d & post & Hsp & Hd & Hpost & Hj & Ho); [lia | exact Es |].
    exists front, d, post. repeat split; try assumption.
    + now rewrite Hj.
    + now apply (extractor_on_split raw front d post).
  - left. split; [reflexivity|].
    assert (Hsp : re_split label_delimiter raw = [raw]).
    { unfold re_split. now rewrite split_from_no_match. }
    split; [exact Hsp|].
    unfold _parse_label_from_explanation. rewrite Hsp. reflexivity.
Qed.

(** X7. The loop of the extractor always returns at its first test: with
    more than one part the result is the last part, stripped, and the
    final [return raw_string] is reached only when the split has a single
    part. *)
Theorem extractor_is_stripped_last_part (raw : string) :
  _parse_label_from_explanation raw =
  if Nat.eqb (List.length (re_split label_delimiter raw)) 1 then raw
  else PyStr.strip (last (re_split label_delimiter raw) "").
Proof.
  destruct (extractor_cases raw)
    as [(_ & Hsp & Hr) | (_ & front & d & post & Hsp & _ & _ & _ & Hr)];
    rewrite Hsp, Hr.
  - reflexivity.
  - rewrite length_app. cbn [List.length].
    replace (Nat.eqb (List.length front + 2) 1) with false
      by (symmetry; apply Nat.eqb_neq; lia).
    replace (front ++ [d; post])%list with ((front ++ [d]) ++ [post])%list
      by (rewrite <- app_assoc; reflexivity).
    now rewrite last_last.
Qed.

(** X8. The delimiter matches nowhere in what the extractor returns, so
    extracting again changes nothing. *)
Theorem extractor_leaves_no_delimiter (raw : string) :
  re_search label_delimiter (_parse_label_from_explanation raw) = false
  /\ _parse_label_from_explanation (_parse_label_from_explanation raw)
     = _parse_label_from_explanation raw.
Proof.
  assert (H : re_search label_delimiter (_parse_label_from_explanation raw)
              = false).
  { destruct (extractor_cases raw)
      as [(Hs & _ & Hr) | (_ & front & d & post & _ & _ & Hpost & _ & Hr)];
      rewrite Hr; [exact Hs|].
    destruct (strip_piece post) as (a & b & Hp & _ & _).
    apply (re_search_piece a _ b). now rewrite <- Hp. }
  split; [exact H|].
  destruct (extractor_cases (_parse_label_from_explanation raw))
    as [(_ & _ & Hr) | (Hs & _)]; [exact Hr | congruence].
Qed.

(** X10. What the extractor returns is a piece of the raw response, and
    only whitespace follows it there. *)
Theorem extractor_returns_piece_of_response (raw : string) :
  exists before after,
    raw = before ++ _parse_label_from_explanation raw ++ after
    /\ spaces after.
Proof.
  destruct (extractor_cases raw)
    as [(_ & _ & Hr) | (_ & front & d & post & _ & Hraw & _ & _ & Hr)];
    rewrite Hr.
  - exists "", "". split; [now rewrite append_nil_r | reflexivity].
  - destruct (strip_piece post) as (a & b & Hp & _ & Hb).
    exists (join front ++ d ++ a), b. split; [|exact Hb].
    rewrite !append_assoc, <- Hp. exact Hraw.
Qed.

(** X9. When the delimiter matches in the raw response, the extracted
    label has no whitespace at either end and, unless it is empty, starts
    with a word character: the punctuation after the word label belongs
    to the delimiter. *)
Theorem extracted_label_starts_with_word (raw : string) :
  re_search label_delimiter raw = true ->
  starts_outside non_word (_parse_label_from_explanation raw)
  /\ PyStr.lstrip (_parse_label_from_explanation raw)
     = _parse_label_from_explanation raw
  /\ PyStr.rstrip (_parse_label_from_explanation raw)
     = _parse_label_from_explanation raw.
Proof.
  intros Hs.
  destruct (extractor_cases raw)
    as [(Hn & _) | (_ & front & d & post & _ & _ & _ & Ho & Hr)];
    [congruence|].
  rewrite Hr. unfold PyStr.strip. rewrite (lstrip_outside post Ho).
  pose proof (rstrip_outside post Ho) as Ho'.
  split; [exact Ho'|]. split.
  - now apply lstrip_outside.
  - apply rstrip_idem.
Qed.

Lemma extracted_label_starts_with_word_witness :
  re_search label_delimiter "The answer. LABEL: *True*  " = true
  /\ _parse_label_from_explanation "The answer. LABEL: *True*  " = "True*"
  /\ starts_outside non_word
       (_parse_label_from_explanation "The answer. LABEL: *True*  ").
Proof.
  split; [reflexivity|]. split; [reflexivity|].
  apply (extracted_label_starts_with_word "The answer. LABEL: *True*  ").
  reflexivity.
Defined.

End Extractor.

(** ** The parts of a split *)

Section Parts.
Import Re.

Lemma join_split_from (pat : pattern) (fuel : nat) :
  forall seg s, join (split_from fuel pat seg s) = seg ++ s.
Proof.
  induction fuel as [|fuel IH]; intros seg s.
  - cbn. apply append_nil_r.
  - cbn [split_from].
    destruct (match_at pat s) as [[d rest]|] eqn:Em.
    + cbn [join fold_right]. fold (join (split_from fuel pat "" rest)).
      rewrite IH. cbn [append].
      now rewrite (match_at_sound _ _ _ _ Em).
    + destruct s as [|c s].
      * cbn. reflexivity.
      * rewrite IH. now rewrite append_assoc.
Qed.

Lemma starts_in_snoc (seg : string) (c : ascii) (s : string) :
  starts_in (seg ++ String c "") s
  = starts_in seg (String c s) || re_match label_word (String c s).
Proof.
  induction seg as [|x seg IH].
  - cbn. now rewrite orb_false_r.
  - cbn [append starts_in]. rewrite IH.
    change (String x (seg ++ String c "") ++ s)
      with (String x ((seg ++ String c "") ++ s)).
    change (String x seg ++ String c s) with (String x (seg ++ String c s)).
    rewrite append_assoc. cbn [append]. now rewrite orb_assoc.
Qed.

Lemma starts_in_search (seg s : string) :
  starts_in seg s = false -> re_search label_delimiter seg = false.
Proof.
  rewrite re_search_delimiter_word.
  induction seg as [|x seg IH]; [reflexivity|].
  cbn [starts_in re_search]. intros H. apply orb_false_iff in H.
  destruct H as [Hm Hs]. rewrite (IH Hs), orb_false_r.
  destruct (re_match label_word (String x seg)) eqn:E; [|reflexivity].
  apply (re_match_word_prefix _ s) in E. congruence.
Qed.

Lemma split_from_alternating (fuel : nat) :
  forall seg s,
    String.length s < fuel ->
    starts_in seg s = false ->
    alternating (split_from fuel label_delimiter seg s).
Proof.
  induction fuel as [|fuel IH]; intros seg s Hlen Hseg; [lia|].
  cbn [split_from].
  destruct (match_at label_delimiter s) as [[d rest]|] eqn:Em.
  - destruct (delimiter_match _ _ _ Em) as (Hd & _ & Hshort & _).
    cbn [alternating]. split; [now apply (starts_in_search seg s)|].
    split; [exact Hd|]. apply IH; [lia | reflexivity].
  - destruct s as [|c s].
    + cbn [alternating]. split; [now apply (starts_in_search seg "") | exact I].
    + apply IH; [cbn in Hlen; lia|].
      rewrite starts_in_snoc, Hseg. cbn [orb].
      destruct (re_match label_word (String c s)) eqn:E; [|reflexivity].
      apply re_match_word_delimiter in E. unfold re_match in E.
      now rewrite Em in E.
Qed.

Lemma alternating_odd (n : nat) :
  forall parts,
    List.length parts <= n -> alternating parts ->
    Nat.odd (List.length parts) = true.
Proof.
  induction n as [|n IH]; intros [|t [|d rest]] Hlen Ha;
    cbn in Hlen; try lia; try reflexivity; try (cbn in Ha; tauto).
  cbn [alternating] in Ha. destruct Ha as (_ & _ & Hrest).
  change (List.length (t :: d :: rest)) with (S (S (List.length rest))).
  rewrite Nat.odd_succ_succ. apply IH; [lia | exact Hrest].
Qed.

(** X6. The parts the extractor splits a response into, put together,
    are the response; they alternate between texts in which the delimiter
    matches nowhere and delimiters, starting and ending with a text, so
    their number is odd. *)
Theorem split_parts_alternate (raw : string) :
  join (re_split label_delimiter raw) = raw
  /\ alternating (re_split label_delimiter raw)
  /\ Nat.odd (List.length (re_split label_delimiter raw)) = true.
Proof.
  assert (Ha : alternating (re_split label_delimiter raw)).
  { apply split_from_alternating; [lia | reflexivity]. }
  split; [apply join_split_from|]. split; [exact Ha|].
  now apply (alternating_odd _ _ (le_n _)).
Qed.

End Parts.

(** ** Responses that follow the template *)

Section TemplateResponse.
Import Re.
Context `{Externals}.

Lemma ends_with_labe_snoc (e : string) (c : ascii) :
  letter "e" c = false -> ends_with_labe (e ++ String c "") = false.
Proof.
  intros Hc. induction e as [|x e IH]; [reflexivity|].
  cbn [append ends_with_labe]. rewrite IH, orb_false_r.
  destruct e as [|y [|z [|w e]]]; cbn; try reflexivity.
  - rewrite Hc. now rewrite !andb_false_r.
  - destruct e; reflexivity.
Qed.

Lemma extractor_after_final_label (e verdict : string) :
  re_search label_delimiter (drop_while non_word verdict) = false ->
  _parse_label_from_explanation (e ++ nl ++ "LABEL" ++ verdict)
  = PyStr.strip (drop_while non_word verdict).
Proof.
  intros Hpost.
  destruct (split_reaches_label "LABEL" verdict eq_refl Hpost
              (S (String.length ((e ++ nl) ++ "LABEL" ++ verdict)))
              (e ++ nl) "")
    as (front & d & Hsp & Hd).
  - lia.
  - apply ends_with_labe_snoc. reflexivity.
  - rewrite <- append_assoc.
    now apply (extractor_on_split _ front d).
Qed.

(** X11. A response that follows the template of the prompt -- any
    explanation, a line break, then [LABEL: true] or [LABEL: false] --
    is extracted to exactly [true] or [false], whatever the explanation
    says (the word label included).  When [snap_to_rail] keeps a rail
    value as it is, both evaluators score it 1.0 or 0.0 and keep the whole
    response as the explanation. *)
Theorem template_response_is_scored
    (c : LLMCriteriaEvaluator.t) (r : RelevanceEvaluator.t) (e : string) :
  snap_to_rail "true" ["true"; "false"] = "true" ->
  snap_to_rail "false" ["true"; "false"] = "false" ->
  _parse_label_from_explanation (e ++ nl ++ "LABEL: true") = "true"
  /\ _parse_label_from_explanation (e ++ nl ++ "LABEL: false") = "false"
  /\ LLMCriteriaEvaluator._parse_eval_output c (e ++ nl ++ "LABEL: true")
     = Ok {| score := 1%float;
             explanation := e ++ nl ++ "LABEL: true";
             metadata := [] |}
  /\ LLMCriteriaEvaluator._parse_eval_output c (e ++ nl ++ "LABEL: false")
     = Ok {| score := 0%float;
             explanation := e ++ nl ++ "LABEL: false";
             metadata := [] |}
  /\ RelevanceEvaluator._parse_eval_output r (e ++ nl ++ "LABEL: true")
     = Ok {| score := 1%float;
             explanation := e ++ nl ++ "LABEL: true";
             metadata := [] |}
  /\ RelevanceEvaluator._parse_eval_output r (e ++ nl ++ "LABEL: false")
     = Ok {| score := 0%float;
             explanation := e ++ nl ++ "LABEL: false";
             metadata := [] |}.
Proof.
  intros Ht Hf.
  assert (Et : _parse_label_from_explanation (e ++ nl ++ "LABEL: true") = "true").
  { apply (extractor_after_final_label e ": true"). reflexivity. }
  assert (Ef : _parse_label_from_explanation (e ++ nl ++ "LABEL: false") = "false").
  { apply (extractor_after_final_label e ": false"). reflexivity. }
  split; [exact Et|]. split; [exact Ef|].
  repeat split;
    rewrite ?criteria_parse_unfold, ?relevance_parse_unfold;
    unfold normalized_label; rewrite ?Et, ?Ef, ?Ht, ?Hf; reflexivity.
Qed.

End TemplateResponse.

Lemma template_response_is_scored_witness :
  @snap_to_rail sample_externals "true" ["true"; "false"] = "true"
  /\ @LLMCriteriaEvaluator._parse_eval_output sample_externals
       sample_criteria_evaluator
       ("The text is labelled as short; the label fits." ++ nl ++ "LABEL: true")
     = Ok (@Build_EvaluationResult sample_externals 1%float
             ("The text is labelled as short; the label fits." ++ nl
              ++ "LABEL: true") []).
Proof.
  split; [reflexivity|].
  destruct (@template_response_is_scored sample_externals
              sample_criteria_evaluator sample_relevance_evaluator
              "The text is labelled as short; the label fits.")
    as (_ & _ & Hc & _).
  - reflexivity.
  - reflexivity.
  - exact Hc.
Defined.

(** ** Building and rendering the criteria template *)

Section Rendering.

Lemma render_literal (kw : Format.kwargs) (l : string) (m : Format.markup) :
  Format.render kw (Format.literal l m)
  = rbind (Format.render kw m) (fun s => Ok (l ++ s)).
Proof.
  induction l as [|c l IH]; cbn [Format.literal Format.render].
  - destruct (Format.render kw m); reflexivity.
  - rewrite IH. destruct (Format.render kw m); reflexivity.
Qed.

(** A format string whose only field is [text] is rendered by putting
    the value in its place, as it is. *)
Lemma format_text_field (before after v : string) :
  Format.brace_free before = true ->
  Format.brace_free after = true ->
  Format.format (before ++ "{text}" ++ after) [("text", v)]
  = Ok (before ++ v ++ after).
Proof.
  intros Hb Ha. unfold Format.format, Format.parse.
  rewrite scan_literal by exact Hb.
  change (Format.scan None ("{text}" ++ after))
    with (Format.MField "text" (Format.scan None after)).
  rewrite <- (append_nil_r after) at 1.
  rewrite scan_literal by exact Ha.
  rewrite render_literal. cbn [Format.render Format.scan].
  rewrite render_literal. cbn. now rewrite append_nil_r.
Qed.

Lemma built_template_split (criteria description : string) :
  built_template criteria description
  = template_head criteria description ++ "{text}" ++ template_tail.
Proof.
  unfold built_template, template_head, template_tail.
  rewrite !append_assoc. reflexivity.
Qed.

Lemma template_head_brace_free (criteria description : string) :
  Format.brace_free criteria = true ->
  Format.brace_free description = true ->
  Format.brace_free (template_head criteria description) = true.
Proof.
  intros Hc Hd. unfold template_head, formatted_description.
  rewrite !brace_free_app, Hc, Hd. reflexivity.
Qed.

Lemma prefix_here (sub b : string) : prefix sub (sub ++ b) = true.
Proof.
  induction sub as [|c sub IH]; [destruct b; reflexivity|].
  cbn. destruct (ascii_dec c c) as [_|n]; [exact IH | now elim n].
Qed.

Lemma contains_here (sub b : string) : PyStr.contains sub (sub ++ b) = true.
Proof.
  destruct sub as [|c sub].
  - destruct b; reflexivity.
  - cbn [append PyStr.contains].
    change (String c (sub ++ b)) with (String c sub ++ b).
    now rewrite prefix_here.
Qed.

Lemma contains_suffix (sub a x : string) :
  PyStr.contains sub x = true -> PyStr.contains sub (a ++ x) = true.
Proof.
  intros Hx. induction a as [|c a IH]; [exact Hx|].
  cbn [append PyStr.contains]. rewrite IH. apply orb_true_r.
Qed.

(** X1. For every criteria and description, with or without braces, the
    template builder returns a template and never raises; the criteria,
    the description and the placeholder [{text}] stand in it as they were
    given. *)
Theorem base_template_inserts_verbatim
    (criteria : string) (description : option string) :
  exists template,
    LLMCriteriaEvaluator._format_base_template criteria description
    = Ok template
    /\ PyStr.contains criteria template = true
    /\ PyStr.contains (str_opt description) template = true
    /\ PyStr.contains "{text}" template = true.
Proof.
  exists (built_template criteria (str_opt description)).
  split; [apply format_base_template_value|].
  split; [|split].
  - unfold built_template. apply contains_suffix, contains_here.
  - unfold built_template, formatted_description.
    rewrite !append_assoc.
    do 6 apply contains_suffix. apply contains_here.
  - rewrite built_template_split. apply contains_suffix, contains_here.
Qed.

End Rendering.

(** X2. For every class name without the character U+0000, and every
    criteria, description and default name, the factory returns a class;
    the template of the class and the template of each of its instances
    are the same string, and an instance is named by the caller or,
    without a name, by the default. *)
Theorem factory_builds_class
    (cname criteria description default_name : string) :
  has_null cname = false ->
  exists cls,
    criteria_evaluator_factory cname criteria description default_name = Ok cls
    /\ class_name cls = cname
    /\ (exists template,
           LLMCriteriaEvaluator._format_base_template criteria (Some description)
           = Ok template
           /\ class_template cls = template)
    /\ forall model name,
        class_init cls model name
        = Ok {| LLMCriteriaEvaluator.model := model;
                LLMCriteriaEvaluator.criteria := criteria;
                LLMCriteriaEvaluator.description := description;
                LLMCriteriaEvaluator.template := class_template cls;
                LLMCriteriaEvaluator.name :=
                  match name with Some n => n | None => default_name end |}.
Proof.
  intros Hn. unfold criteria_evaluator_factory.
  rewrite format_base_template_value. cbn [rbind]. rewrite Hn.
  eexists. split; [reflexivity|]. cbn [class_name class_template class_init].
  split; [reflexivity|]. split.
  - eexists. split; reflexivity.
  - intros model name. unfold LLMCriteriaEvaluator.init.
    rewrite format_base_template_value. reflexivity.
Qed.

Lemma factory_builds_class_witness :
  has_null "BrevityEvaluator" = false
  /\ exists cls,
      criteria_evaluator_factory "BrevityEvaluator" "brief" "is short" "Brevity"
      = Ok cls
      /\ forall model,
          class_init cls model None
          = Ok {| LLMCriteriaEvaluator.model := model;
                  LLMCriteriaEvaluator.criteria := "brief";
                  LLMCriteriaEvaluator.description := "is short";
                  LLMCriteriaEvaluator.template := class_template cls;
                  LLMCriteriaEvaluator.name := "Brevity" |}.
Proof.
  split; [reflexivity|].
  destruct (factory_builds_class "BrevityEvaluator" "brief" "is short" "Brevity")
    as (cls & Hf & _ & _ & Hi).
  - reflexivity.
  - exists cls. split; [exact Hf|]. intros model. exact (Hi model None).
Defined.

(** A class name with the character U+0000 is refused, whatever the other
    arguments are. *)
Example factory_refuses_null_name :
  forall criteria description default_name,
    criteria_evaluator_factory (String Ascii.zero "Evaluator")
      criteria description default_name
    = Raise (ValueError "type name must not contain null characters").
Proof.
  intros. unfold criteria_evaluator_factory.
  rewrite format_base_template_value. reflexivity.
Qed.

(** ** Running the criteria evaluator *)

Section CriteriaEvaluate.
Context `{Externals}.

(** X3. An evaluator built from a criteria and a description without
    braces renders its prompt by putting the judged text, as it is (braces
    and all), between the head and the tail of its template; [evaluate]
    sends exactly that prompt to the model client, once, and parses the
    answer, and [async_evaluate] does the same through the suspending
    entry point. *)
Theorem criteria_evaluate_sends_rendered_prompt
    (model : LLMBaseModel) (criteria description name : string)
    (example : Example) (run : ExperimentRun) (out : ExperimentResult) :
  Format.brace_free criteria = true ->
  Format.brace_free description = true ->
  output run = Some out ->
  exists ev prompt,
    LLMCriteriaEvaluator.init model criteria description name = Ok ev
    /\ prompt = template_head criteria description
                ++ str (_unwrap_json (result_ out)) ++ template_tail
    /\ LLMCriteriaEvaluator._format_eval_template ev run = Ok prompt
    /\ LLMCriteriaEvaluator.evaluate ev example run
       = (rbind (_generate model prompt)
            (LLMCriteriaEvaluator._parse_eval_output ev),
          [Generate prompt])
    /\ LLMCriteriaEvaluator.async_evaluate ev example run
       = (rbind (_async_generate model prompt)
            (LLMCriteriaEvaluator._parse_eval_output ev),
          [AsyncGenerate prompt]).
Proof.
  intros Hc Hd Hout.
  unfold LLMCriteriaEvaluator.init.
  rewrite format_base_template_value. cbn [rbind str_opt].
  eexists. eexists. split; [reflexivity|]. split; [reflexivity|].
  assert (Hf : LLMCriteriaEvaluator._format_eval_template
                 {| LLMCriteriaEvaluator.model := model;
                    LLMCriteriaEvaluator.criteria := criteria;
                    LLMCriteriaEvaluator.description := description;
                    LLMCriteriaEvaluator.template :=
                      built_template criteria description;
                    LLMCriteriaEvaluator.name := name |} run
               = Ok (template_head criteria description
                     ++ str (_unwrap_json (result_ out)) ++ template_tail)).
  { unfold LLMCriteriaEvaluator._format_eval_template. rewrite Hout.
    cbn [LLMCriteriaEvaluator.template].
    rewrite built_template_split.
    apply format_text_field; [now apply template_head_brace_free | reflexivity]. }
  split; [exact Hf|].
  unfold LLMCriteriaEvaluator.evaluate, LLMCriteriaEvaluator.async_evaluate.
  rewrite Hf. unfold bind, lift, generate, async_generate.
  cbn [LLMCriteriaEvaluator.model].
  split.
  - destruct (_generate model _); reflexivity.
  - destruct (_async_generate model _); reflexivity.
Qed.

(** X5. [evaluate] returns a result only when every stage went through:
    the template was rendered, the model client answered the rendered
    prompt, and the answer was classified as true or false.  The
    explanation of the result is that answer, the score is that of its
    label, and the model client was called exactly once. *)
Theorem criteria_evaluate_result_inversion
    (c : LLMCriteriaEvaluator.t) (example : Example) (run : ExperimentRun)
    (res : EvaluationResult) :
  outcome (LLMCriteriaEvaluator.evaluate c example run) = Ok res ->
  exists prompt response,
    LLMCriteriaEvaluator._format_eval_template c run = Ok prompt
    /\ _generate (LLMCriteriaEvaluator.model c) prompt = Ok response
    /\ (normalized_label response = "true"
        \/ normalized_label response = "false")
    /\ res = {| score := score_of (normalized_label response);
                explanation := response;
                metadata := [] |}
    /\ calls (LLMCriteriaEvaluator.evaluate c example run) = [Generate prompt].
Proof.
  unfold LLMCriteriaEvaluator.evaluate.
  destruct (LLMCriteriaEvaluator._format_eval_template c run) as [prompt|e];
    [|cbn; discriminate].
  unfold bind, lift, generate, outcome, calls.
  destruct (_generate (LLMCriteriaEvaluator.model c) prompt)
    as [response|e] eqn:Eg; [|cbn; discriminate].
  cbn [fst snd]. rewrite criteria_parse_unfold.
  destruct (String.eqb (normalized_label response) "true") eqn:Et.
  - apply String.eqb_eq in Et. intros [= <-].
    exists prompt, response. rewrite Et. repeat split; auto.
  - destruct (String.eqb (normalized_label response) "false") eqn:Ef;
      [|discriminate].
    apply String.eqb_eq in Ef. intros [= <-].
    exists prompt, response. rewrite Ef. repeat split; auto.
Qed.

(** X4. [evaluate] and [async_evaluate] of the relevance evaluator raise
    on every example and every run, whatever the extraction functions
    are, and never call the model client: the output is missing, or an
    extraction function raises, or the formatting raises KeyError. *)
Theorem relevance_evaluate_always_raises
    (r : RelevanceEvaluator.t) (example : Example) (run : ExperimentRun) :
  exists e,
    RelevanceEvaluator.evaluate r example run = (Raise e, [])
    /\ RelevanceEvaluator.async_evaluate r example run = (Raise e, []).
Proof.
  assert (Hfmt : forall q a,
             Format.format RelevanceEvaluator.template
               [("query", q); ("response", a)] = Raise (KeyError "reference")).
  { intros q a. vm_compute. reflexivity. }
  unfold RelevanceEvaluator.evaluate, RelevanceEvaluator.async_evaluate,
    RelevanceEvaluator._format_eval_template.
  destruct (output run) as [out|].
  - destruct (RelevanceEvaluator.get_query r example run) as [q|eq].
    + destruct (RelevanceEvaluator.get_response r example run) as [a|ea].
      * cbn [rbind]. rewrite Hfmt. eexists. split; reflexivity.
      * exists ea. split; reflexivity.
    + exists eq. split; reflexivity.
  - exists AssertionError. split; reflexivity.
Qed.

End CriteriaEvaluate.

Lemma criteria_evaluate_sends_rendered_prompt_witness :
  Format.brace_free "concise" = true
  /\ exists ev prompt,
      LLMCriteriaEvaluator.init (stub_model "It is short. LABEL: true")
        "concise" "is short" "Conciseness" = Ok ev
      /\ prompt = template_head "concise" "is short" ++ "Paris" ++ template_tail
      /\ @LLMCriteriaEvaluator.evaluate sample_externals ev sample_example
           sample_run
         = (Ok (@Build_EvaluationResult sample_externals 1%float
                  "It is short. LABEL: true" []),
            [Generate prompt]).
Proof.
  split; [reflexivity|].
  destruct (@criteria_evaluate_sends_rendered_prompt sample_externals
              (stub_model "It is short. LABEL: true")
              "concise" "is short" "Conciseness"
              sample_example sample_run
              (@Build_ExperimentResult sample_externals "Paris"))
    as (ev & prompt & Hi & Hp & _ & He & _).
  - reflexivity.
  - reflexivity.
  - reflexivity.
  - exists ev, prompt. split; [exact Hi|]. split; [exact Hp|].
    rewrite He. reflexivity.
Defined.

Lemma criteria_evaluate_result_inversion_witness :
  exists prompt response,
    @LLMCriteriaEvaluator._format_eval_template sample_externals
      sample_criteria_evaluator sample_run = Ok prompt
    /\ _generate (LLMCriteriaEvaluator.model sample_criteria_evaluator) prompt
       = Ok response
    /\ calls (@LLMCriteriaEvaluator.evaluate sample_externals
                sample_criteria_evaluator sample_example sample_run)
       = [Generate prompt].
Proof.
  destruct (@criteria_evaluate_result_inversion sample_externals
              sample_criteria_evaluator sample_example sample_run
              (@Build_EvaluationResult sample_externals 1%float
                 "LABEL: true" []))
    as (prompt & response & Hf & Hg & _ & _ & Hc).
  - reflexivity.
  - exists prompt, response. split; [exact Hf|]. split; [exact Hg | exact Hc].
Defined.

Lemma delimiter_found_iff_letters_witness :
  Re.re_search Re.label_delimiter "The mislabeLed text" = true.
Proof.
  apply (proj2 (delimiter_found_iff_letters "The mislabeLed text")).
  exists "The mis", "l"%char, "a"%char, "b"%char, "e"%char, "L"%char, "ed text".
  split; [reflexivity|]. repeat split.
Defined.

(** A failure of the model client is the outcome of [evaluate], after the
    one call that failed. *)
Example client_failure_propagates :
  exists prompt,
    @LLMCriteriaEvaluator.evaluate sample_externals
      {| LLMCriteriaEvaluator.model := failing_model "quota exceeded";
         LLMCriteriaEvaluator.criteria := "concise";
         LLMCriteriaEvaluator.description := "is short";
         LLMCriteriaEvaluator.template := "TEXT: {text}";
         LLMCriteriaEvaluator.name := "Conciseness" |}
      sample_example sample_run
    = (Raise (ClientError "quota exceeded"), [Generate prompt])
    /\ prompt = "TEXT: Paris".
Proof. eexists. split; reflexivity. Qed.
